(** * Image service handlers (handler.py): a shallow embedding

    The four Lambda handlers of [handler.py] (upload_image, list_images,
    get_image, delete_image) are embedded as functions in a state and
    exception monad over the two backing stores.

    - The event is what the HTTP front end hands a handler: httpMethod and
      body are strings or null, queryStringParameters is a mapping of
      strings, null, or absent.
    - Python values are the type [json]; exceptions are values of type
      [exn], all of them instances of Exception.
    - [json.loads] is a parameter of the handlers: they depend only on
      whether it raises JSONDecodeError and on the value it returns.
      [json_loads_plain] decodes a fragment of JSON and serves to run the
      handlers on concrete requests.
    - base64, uuid and datetime belong to the Python standard library; the
      functions the handlers call are written out.
    - The bucket and the table are finite maps.  A store call may fail: the
      surroundings of an invocation, an [env], say for each call whether it
      raises and what, and give the wall clock and the random bits.  The
      table returns in one scan all it holds. *)

From Stdlib Require Import ZArith NArith List String Ascii Strings.Byte Bool Lia.
From Stdlib Require Import Floats.SpecFloat DecimalString.
From stdpp Require Import base gmap strings list fin_maps.

Set Warnings "-register-all".

Local Open Scope string_scope.
Local Open Scope Z_scope.

(** ** Python values *)

(** The Python values of the handlers: what [json.loads] may return (None,
    bool, int, float, str, list, dict), and [decimal.Decimal], which the
    table's client hands back for a stored number.  A dict keeps its
    insertion order and is an association list whose lookup takes the first
    binding of a key. *)
Inductive json : Type :=
| JNull
| JBool (b : bool)
| JInt (z : Z)
| JFloat (f : spec_float)
| JStr (s : string)
| JArr (l : list json)
| JObj (d : list (string * json))
| JDecimal (z : Z).

Definition float_is_zero (f : spec_float) : bool :=
  match f with
  | S754_zero _ => true
  | _ => false
  end.

Definition str_is_empty (s : string) : bool :=
  match s with
  | EmptyString => true
  | String _ _ => false
  end.

(** Python truth value: [bool(v)]. *)
Definition truthy (v : json) : bool :=
  match v with
  | JNull => false
  | JBool b => b
  | JInt z => negb (z =? 0)
  | JFloat f => negb (float_is_zero f)
  | JStr s => negb (str_is_empty s)
  | JArr l => match l with [] => false | _ => true end
  | JObj d => match d with [] => false | _ => true end
  | JDecimal z => negb (z =? 0)
  end.

(** [type(v).__name__] *)
Definition type_name (v : json) : string :=
  match v with
  | JNull => "NoneType"
  | JBool _ => "bool"
  | JInt _ => "int"
  | JFloat _ => "float"
  | JStr _ => "str"
  | JArr _ => "list"
  | JObj _ => "dict"
  | JDecimal _ => "Decimal"
  end.

(** [d.get(k)] on the bindings of a dict *)
Fixpoint assoc_get {V : Type} (k : string) (d : list (string * V)) : option V :=
  match d with
  | [] => None
  | (k', v) :: rest => if String.eqb k k' then Some v else assoc_get k rest
  end.

(** [d[k] = v]: an existing key keeps its place, a new one goes last. *)
Fixpoint assoc_set {V : Type} (k : string) (v : V) (d : list (string * V)) : list (string * V) :=
  match d with
  | [] => [(k, v)]
  | (k', v') :: rest =>
      if String.eqb k k' then (k', v) :: rest else (k', v') :: assoc_set k v rest
  end.

(** ** Exceptions *)

(** The exception classes the handlers tell apart, all below [Exception].
    [ClientError] is botocore's error for a request the service answered
    with an error; [BotoCoreError] stands for the client-side errors
    (parameter validation, connection): it is not a [ClientError]. *)
Inductive exn_class : Type :=
| ClientError
| BotoCoreError
| AttributeError
| TypeError
| ValueError
| KeyError
| BinasciiError
| OtherException.

(** An exception with [str(e)]. *)
Record exn : Type := Exn { exn_cls : exn_class; exn_str : string }.

Definition is_ClientError (e : exn) : bool :=
  match exn_cls e with
  | ClientError => true
  | _ => false
  end.

Inductive result (A : Type) : Type :=
| Ok (a : A)
| Raise (e : exn).
Arguments Ok {A} a.
Arguments Raise {A} e.

(** ** base64 (standard library) *)

(** Text is a [string] of bytes (the UTF-8 encoding of a Python str), binary
    data a [list byte]. *)
Definition b64_alphabet : string :=
  "ABCDEFGHIJKLMNOPQRSTUVWXYZabcdefghijklmnopqrstuvwxyz0123456789+/".

(** The character of a 6-bit value. *)
Definition b64_char (n : N) : ascii :=
  match String.get (N.to_nat n) b64_alphabet with
  | Some c => c
  | None => "="%char
  end.

(** The 6-bit value of a character of the alphabet, None for any other. *)
Definition b64_index (c : ascii) : option N :=
  let n := N_of_ascii c in
  if ((65 <=? n) && (n <=? 90))%N then Some (n - 65)%N
  else if ((97 <=? n) && (n <=? 122))%N then Some (n - 71)%N
  else if ((48 <=? n) && (n <=? 57))%N then Some (n + 4)%N
  else if (n =? 43)%N then Some 62%N
  else if (n =? 47)%N then Some 63%N
  else None.

Definition byte_of_N (n : N) : byte :=
  match Byte.of_N (n mod 256) with
  | Some b => b
  | None => x00
  end.

(** [base64.b64encode(data).decode()]: three bytes give four characters, a
    last group of one or two bytes is padded with [=]. *)
Fixpoint b64encode (data : list byte) : string :=
  match data with
  | [] => EmptyString
  | [a] =>
      let x := Byte.to_N a in
      String (b64_char (x / 4)) (String (b64_char (x mod 4 * 16)) "==")
  | [a; b] =>
      let x := Byte.to_N a in
      let y := Byte.to_N b in
      String (b64_char (x / 4))
        (String (b64_char (x mod 4 * 16 + y / 16))
           (String (b64_char (y mod 16 * 4)) "="))
  | a :: b :: c :: rest =>
      let x := Byte.to_N a in
      let y := Byte.to_N b in
      let z := Byte.to_N c in
      String (b64_char (x / 4))
        (String (b64_char (x mod 4 * 16 + y / 16))
           (String (b64_char (y mod 16 * 4 + z / 64))
              (String (b64_char (z mod 64)) (b64encode rest))))
  end%N.

(** [binascii.a2b_base64] in its default, non-strict mode: the loop over the
    characters with its state [quad_pos], [pads], [leftchar] and the bytes
    written so far.  A character outside the alphabet is skipped; padding
    ends the input once the current group of four is complete. *)
Fixpoint a2b_base64 (s : string) (quad_pos pads leftchar : N) (out : list byte)
  : result (list byte) :=
  match s with
  | EmptyString =>
      if (quad_pos =? 0)%N then Ok out
      else if (quad_pos =? 1)%N then
        Raise (Exn BinasciiError
                 "Invalid base64-encoded string: number of data characters cannot be 1 more than a multiple of 4")
      else Raise (Exn BinasciiError "Incorrect padding")
  | String c rest =>
      if Ascii.eqb c "="%char then
        if ((2 <=? quad_pos) && (4 <=? quad_pos + (pads + 1)))%N then Ok out
        else a2b_base64 rest quad_pos
               (if (2 <=? quad_pos)%N then (pads + 1)%N else pads) leftchar out
      else
        match b64_index c with
        | None => a2b_base64 rest quad_pos pads leftchar out
        | Some v =>
            match quad_pos with
            | 0%N => a2b_base64 rest 1 0 v out
            | 1%N =>
                a2b_base64 rest 2 0 (v mod 16)
                  (out ++ [byte_of_N (leftchar * 4 + v / 16)])
            | 2%N =>
                a2b_base64 rest 3 0 (v mod 4)
                  (out ++ [byte_of_N (leftchar * 16 + v / 4)])
            | _ =>
                a2b_base64 rest 0 0 0 (out ++ [byte_of_N (leftchar * 64 + v)])
            end%N
        end
  end.

Definition is_ascii (c : ascii) : bool := (N_of_ascii c <? 128)%N.

Fixpoint all_ascii (s : string) : bool :=
  match s with
  | EmptyString => true
  | String c rest => is_ascii c && all_ascii rest
  end.

(** [base64.b64decode(v)] (validate=False) on a value of a JSON body: a str
    must be ASCII, any other type is refused. *)
Definition b64decode (v : json) : result (list byte) :=
  match v with
  | JStr s =>
      if all_ascii s then a2b_base64 s 0 0 0 []
      else Raise (Exn ValueError "string argument should contain only ASCII characters")
  | _ =>
      Raise (Exn TypeError
               ("argument should be a bytes-like object or ASCII string, not '"
                  +:+ type_name v +:+ "'"))
  end.

(** ** uuid and datetime (standard library) *)

Definition digit_char (n : Z) : ascii :=
  match String.get (Z.to_nat n) "0123456789abcdef" with
  | Some c => c
  | None => "0"%char
  end.

(** The low [n] digits of [v] in base [base], most significant first. *)
Fixpoint digits (base : Z) (n : nat) (v : Z) : string :=
  match n with
  | O => EmptyString
  | S k => String (digit_char ((v / base ^ Z.of_nat k) mod base)) (digits base k v)
  end.

(** [uuid.uuid4().int] from 16 random bytes read as an integer [r]: the
    variant and version bits are forced. *)
Definition uuid4 (r : Z) : Z :=
  let i := r mod 2 ^ 128 in
  let i := Z.land i (Z.lnot (Z.shiftl 49152 48)) in
  let i := Z.lor i (Z.shiftl 32768 48) in
  let i := Z.land i (Z.lnot (Z.shiftl 61440 64)) in
  Z.lor i (Z.shiftl 4 76).

(** [str(u)] of a UUID with integer [i]: 8-4-4-4-12 hexadecimal digits. *)
Definition uuid_str (i : Z) : string :=
  let hex := digits 16 32 i in
  substring 0 8 hex +:+ "-" +:+ substring 8 4 hex +:+ "-" +:+ substring 12 4 hex
    +:+ "-" +:+ substring 16 4 hex +:+ "-" +:+ substring 20 12 hex.

(** The proleptic Gregorian date (year, month, day) of a day number counted
    from 1970-01-01. *)
Definition civil_from_days (days : Z) : Z * Z * Z :=
  let z := days + 719468 in
  let era := z / 146097 in
  let doe := z - era * 146097 in
  let yoe := (doe - doe / 1460 + doe / 36524 - doe / 146096) / 365 in
  let y := yoe + era * 400 in
  let doy := doe - (365 * yoe + yoe / 4 - yoe / 100) in
  let mp := (5 * doy + 2) / 153 in
  let d := doy - (153 * mp + 2) / 5 + 1 in
  let m := if mp <? 10 then mp + 3 else mp - 9 in
  (if m <=? 2 then y + 1 else y, m, d).

(** [date.isoformat()]: YYYY-MM-DD. *)
Definition date_isoformat (ymd : Z * Z * Z) : string :=
  let '(y, m, d) := ymd in
  digits 10 4 y +:+ "-" +:+ digits 10 2 m +:+ "-" +:+ digits 10 2 d.

(** ** The two stores and the surroundings of an invocation *)

(** A metadata record: the attributes of an item of the table. *)
Abbreviation item := (list (string * json)).

(** The Object Store bucket (key to blob) and the Metadata Store table
    (primary key [id] to item). *)
Record stores : Type := Stores {
  bucket : gmap string (list byte);
  table : gmap string item
}.

(** The store calls a handler makes. *)
Inductive store_op : Type :=
| PutObject
| GetObject
| DeleteObject
| PutItem
| GetItem
| DeleteItem
| Scan.

(** What one invocation reads from outside: for each store call whether the
    store refuses it and with which exception ([fault]), the wall clock in
    seconds since the epoch with the offset of the host's time zone from UTC,
    and the 16 random bytes [uuid.uuid4] draws, as an integer. *)
Record env : Type := Env {
  fault : store_op -> option exn;
  clock : Z;
  utc_offset : Z;
  entropy : Z
}.

(** A handler step: it may change the stores, and returns or raises. *)
Definition M (A : Type) : Type := stores -> result A * stores.

Definition ret {A : Type} (a : A) : M A := fun w => (Ok a, w).

Definition raise {A : Type} (e : exn) : M A := fun w => (Raise e, w).

Definition lift {A : Type} (r : result A) : M A := fun w => (r, w).

Definition bind {A B : Type} (m : M A) (k : A -> M B) : M B :=
  fun w =>
    match m w with
    | (Ok a, w') => k a w'
    | (Raise e, w') => (Raise e, w')
    end.

(** [try: m except ... as e: h e]; the stores keep what [m] did before it
    raised. *)
Definition try_except {A : Type} (m : M A) (h : exn -> M A) : M A :=
  fun w =>
    match m w with
    | (Ok a, w') => (Ok a, w')
    | (Raise e, w') => h e w'
    end.

Declare Scope handler_scope.
Delimit Scope handler_scope with handler.
Notation "x <- m ;; k" := (bind m (fun x => k))
  (at level 100, m at next level, right associativity) : handler_scope.
Notation "m ;; k" := (bind m (fun _ => k))
  (at level 100, right associativity) : handler_scope.

Definition param_validation (what : string) : exn :=
  Exn BotoCoreError ("Parameter validation failed: " +:+ what).

(** The S3 key of a call: botocore refuses, before any request is sent, a
    Key that is not a string or is empty. *)
Definition s3_key (key : json) : result string :=
  match key with
  | JStr EmptyString => Raise (param_validation "Invalid length for parameter Key")
  | JStr k => Ok k
  | _ => Raise (param_validation "Invalid type for parameter Key")
  end.

Definition store_call (e : env) (op : store_op) : M unit :=
  match fault e op with
  | Some x => raise x
  | None => ret tt
  end.

Local Open Scope handler_scope.

(** [s3.put_object(Bucket=BUCKET_NAME, Key=key, Body=body)] *)
Definition s3_put_object (e : env) (key : json) (body : list byte) : M unit :=
  k <- lift (s3_key key) ;;
  store_call e PutObject ;;
  fun w => (Ok tt, Stores (<[k := body]> (bucket w)) (table w)).

(** [s3.get_object(Bucket=BUCKET_NAME, Key=key)["Body"].read()] *)
Definition s3_get_object (e : env) (key : json) : M (list byte) :=
  k <- lift (s3_key key) ;;
  store_call e GetObject ;;
  fun w =>
    match bucket w !! k with
    | Some blob => (Ok blob, w)
    | None =>
        (Raise (Exn ClientError
                  "An error occurred (NoSuchKey) when calling the GetObject operation: The specified key does not exist."),
         w)
    end.

(** [s3.delete_object(Bucket=BUCKET_NAME, Key=key)]; deleting a key that is
    not there succeeds. *)
Definition s3_delete_object (e : env) (key : json) : M unit :=
  k <- lift (s3_key key) ;;
  store_call e DeleteObject ;;
  fun w => (Ok tt, Stores (delete k (bucket w)) (table w)).

(** A float anywhere in a value: the table client's serializer refuses it,
    before any request is sent. *)
Fixpoint contains_float (v : json) : bool :=
  match v with
  | JFloat _ => true
  | JArr l => existsb contains_float l
  | JObj d => existsb (fun kv => contains_float kv.2) d
  | _ => false
  end.

Definition float_refused : exn :=
  Exn TypeError "Float types are not supported. Use Decimal types instead.".

(** The value of the primary key [id] in a request: the table's key is a
    string, the service refuses any other. *)
Definition table_key (op : string) (id : option json) : result string :=
  match id with
  | Some (JStr k) => Ok k
  | _ =>
      Raise (Exn ClientError
               ("An error occurred (ValidationException) when calling the " +:+ op
                  +:+ " operation: The provided key element does not match the schema"))
  end.

(** A value as the client's deserializer hands it back: a number of the
    table is a [decimal.Decimal]. *)
Fixpoint read_back (v : json) : json :=
  match v with
  | JInt z => JDecimal z
  | JArr l => JArr (List.map read_back l)
  | JObj d => JObj (List.map (fun kv => (kv.1, read_back kv.2)) d)
  | _ => v
  end.

Definition read_back_item (it : item) : item :=
  List.map (fun kv => (kv.1, read_back kv.2)) it.

(** [table.put_item(Item=it)] *)
Definition table_put_item (e : env) (it : item) : M unit :=
  if existsb (fun kv => contains_float kv.2) it then raise float_refused
  else
    store_call e PutItem ;;
    k <- lift (table_key "PutItem" (assoc_get "id" it)) ;;
    fun w => (Ok tt, Stores (bucket w) (<[k := it]> (table w))).

(** [table.get_item(Key={"id": id}).get("Item")] *)
Definition table_get_item (e : env) (id : json) : M (option item) :=
  if contains_float id then raise float_refused
  else
    store_call e GetItem ;;
    k <- lift (table_key "GetItem" (Some id)) ;;
    fun w => (Ok (read_back_item <$> table w !! k), w).

(** [table.delete_item(Key={"id": id})] *)
Definition table_delete_item (e : env) (id : json) : M unit :=
  if contains_float id then raise float_refused
  else
    store_call e DeleteItem ;;
    k <- lift (table_key "DeleteItem" (Some id)) ;;
    fun w => (Ok tt, Stores (bucket w) (delete k (table w))).

(** A filter expression: [Attr(name).eq(value)] and [&]. *)
Inductive condition : Type :=
| AttrEq (name value : string)
| And (a b : condition).

(** The store's evaluation of a filter expression on an item. *)
Fixpoint condition_holds (c : condition) (it : item) : bool :=
  match c with
  | AttrEq name value =>
      match assoc_get name it with
      | Some (JStr s) => String.eqb s value
      | _ => false
      end
  | And a b => condition_holds a it && condition_holds b it
  end.

(** [table.scan(FilterExpression=c).get("Items", [])], and [table.scan()]
    for [None]: the items of the whole table that pass the filter, which the
    store evaluates on the items it holds.  The table is taken to fit the
    one page a scan call returns. *)
Definition table_scan (e : env) (c : option condition) : M (list item) :=
  store_call e Scan ;;
  fun w =>
    let items := (map_to_list (table w)).*2 in
    (Ok (read_back_item
           <$> match c with
               | Some c => List.filter (condition_holds c) items
               | None => items
               end), w).

(** [datetime.now().date()]: the date of the host's local time; the year of
    a datetime is between 1 and 9999. *)
Definition datetime_now_date (e : env) : result (Z * Z * Z) :=
  let '(y, m, d) := civil_from_days ((clock e + utc_offset e) / 86400) in
  if (1 <=? y) && (y <=? 9999) then Ok (y, m, d)
  else Raise (Exn ValueError "year is out of range").

(** ** Events and responses *)

(** [event.get("queryStringParameters", {})]: the key may be absent, hold
    null (a request without a query string), or a mapping of strings. *)
Inductive query_params : Type :=
| QAbsent
| QNull
| QMap (m : gmap string string).

(** The invocation event; [None] is an absent key or null. *)
Record event : Type := Event {
  httpMethod : option string;
  body : option string;
  queryStringParameters : query_params
}.

(** A JSON text, kept as the value it is the text of. *)
Inductive json_text : Type :=
| TextOf (v : json).

(** What [json.dumps] can write: anything but a [decimal.Decimal]. *)
Fixpoint json_serializable (v : json) : bool :=
  match v with
  | JDecimal _ => false
  | JArr l => forallb json_serializable l
  | JObj d => forallb (fun kv => json_serializable kv.2) d
  | _ => true
  end.

(** [json.dumps(v)] *)
Definition json_dumps (v : json) : result json_text :=
  if json_serializable v then Ok (TextOf v)
  else Raise (Exn TypeError "Object of type Decimal is not JSON serializable").

(** The response: the keys [statusCode] and [body], the second one named
    [body_text] here. *)
Record envelope : Type := Envelope {
  statusCode : Z;
  body_text : json_text
}.

(** [json.loads(r["body"])] of a response *)
Definition response_json (r : envelope) : json :=
  match body_text r with
  | TextOf v => v
  end.

(** The envelope with the text of [body_dict] as its body. *)
Definition reply (status_code : Z) (body_dict : json) : envelope :=
  {| statusCode := status_code; body_text := TextOf body_dict |}.

Definition response (status_code : Z) (body_dict : json) : result envelope :=
  match json_dumps body_dict with
  | Ok text => Ok {| statusCode := status_code; body_text := text |}
  | Raise x => Raise x
  end.

Definition error_body (msg : string) : json := JObj [("error", JStr msg)].

(** [not s] for a str or None *)
Definition str_falsy (s : option string) : bool :=
  match s with
  | None => true
  | Some s => str_is_empty s
  end.

(** [if s:] for a str or None *)
Definition str_truthy (s : option string) : bool := negb (str_falsy s).

Definition str_is (s : option string) (lit : string) : bool :=
  match s with
  | Some s => String.eqb s lit
  | None => false
  end.

Definition no_attribute_get (ty : string) : exn :=
  Exn AttributeError ("'" +:+ ty +:+ "' object has no attribute 'get'").

(** [v.get(k, default)] on a decoded JSON value: only a dict has [get]. *)
Definition py_get (v : json) (k : string) (dflt : json) : result json :=
  match v with
  | JObj d => Ok (default dflt (assoc_get k d))
  | _ => Raise (no_attribute_get (type_name v))
  end.

(** [not item] for the item of a lookup: None or an empty dict *)
Definition item_falsy (it : option item) : bool :=
  match it with
  | None => true
  | Some [] => true
  | Some _ => false
  end.

(** ** The handlers *)

Section Handlers.

(** [json.loads] on the body text: [None] when it raises
    [json.JSONDecodeError].  The handlers are embedded over any decoder. *)
Variable json_loads : string -> option json.

Definition upload_image (e : env) (event : event) : M envelope :=
  try_except
    (if negb (str_is (httpMethod event) "POST") then
       lift (response 405 (error_body "Method not allowed, use POST"))
     else
       let body_str := body event in
       if str_falsy body_str then
         lift (response 400 (error_body "Request body is missing"))
       else
         match json_loads (default EmptyString body_str) with
         | None => lift (response 400 (error_body "Invalid JSON in body"))
         | Some body =>
             file_name <- lift (py_get body "file_name" JNull) ;;
             file_content_b64 <- lift (py_get body "file_content" JNull) ;;
             metadata <- lift (py_get body "metadata" (JObj [])) ;;
             if negb (truthy file_name) || negb (truthy file_content_b64) then
               lift (response 400 (error_body "file_name and file_content required"))
             else
               match b64decode file_content_b64 with
               | Raise _ =>
                   lift (response 400 (error_body "Invalid base64 for file_content"))
               | Ok file_content =>
                   let unique_id := uuid_str (uuid4 (entropy e)) in
                   s3_put_object e file_name file_content ;;
                   today <- lift (datetime_now_date e) ;;
                   let created_at := date_isoformat today in
                   table_put_item e
                     [("id", JStr unique_id); ("file_name", file_name);
                      ("metadata", metadata); ("created_at", JStr created_at)] ;;
                   lift (response 200
                          (JObj [("message", JStr "Image uploaded");
                                 ("file_name", file_name);
                                 ("id", JStr unique_id)]))
               end
         end)
    (fun e => lift (response 500 (error_body (exn_str e)))).

(** [a & b] when there is an [a], else [b] *)
Definition and_filter (filter_expr : option condition) (expr : condition) : condition :=
  match filter_expr with
  | None => expr
  | Some f => And f expr
  end.

Definition list_images (e : env) (event : event) : M envelope :=
  try_except
    (let params :=
       match queryStringParameters event with
       | QMap m => m
       | QAbsent | QNull => ∅
       end in
     let file_name_filter := params !! "file_name" in
     let created_at_filter := params !! "created_at" in
     let filter_expr := None in
     let filter_expr :=
       if str_truthy file_name_filter then
         Some (AttrEq "file_name" (default EmptyString file_name_filter))
       else filter_expr in
     let filter_expr :=
       if str_truthy created_at_filter then
         let expr := AttrEq "created_at" (default EmptyString created_at_filter) in
         Some (and_filter filter_expr expr)
       else filter_expr in
     response_items <-
       match filter_expr with
       | Some f => table_scan e (Some f)
       | None => table_scan e None
       end ;;
     lift (response 200 (JObj [("images", JArr (JObj <$> response_items))])))
    (fun e => lift (response 500 (error_body (exn_str e)))).

(** The two except clauses of get_image and delete_image. *)
Definition client_error_handler (e : exn) : M envelope :=
  if is_ClientError e then lift (response 404 (error_body (exn_str e)))
  else lift (response 500 (error_body (exn_str e))).

Definition get_image (e : env) (event : event) : M envelope :=
  try_except
    (image_id <-
       match queryStringParameters event with
       | QAbsent => ret None
       | QMap params => ret (params !! "id")
       | QNull => raise (no_attribute_get "NoneType")
       end ;;
     if str_falsy image_id then
       lift (response 400 (error_body "Missing id in query parameters"))
     else
       let image_id := default EmptyString image_id in
       item <- table_get_item e (JStr image_id) ;;
       if item_falsy item then lift (response 404 (error_body "Image not found"))
       else
         let item := default [] item in
         file_name <-
           match assoc_get "file_name" item with
           | Some v => ret v
           | None => raise (Exn KeyError "'file_name'")
           end ;;
         let created_at := default (JStr EmptyString) (assoc_get "created_at" item) in
         blob <- s3_get_object e file_name ;;
         let file_content_b64 := b64encode blob in
         lift (response 200
                (JObj [("id", JStr image_id); ("file_name", file_name);
                       ("file_content", JStr file_content_b64);
                       ("created_at", created_at)])))
    client_error_handler.

Definition delete_image (e : env) (event : event) : M envelope :=
  try_except
    (if negb (str_is (httpMethod event) "DELETE") then
       lift (response 405 (error_body "Method not allowed, use DELETE"))
     else
       let body_str := body event in
       if str_falsy body_str then
         lift (response 400 (error_body "Request body missing"))
       else
         match json_loads (default EmptyString body_str) with
         | None => lift (response 400 (error_body "Invalid JSON in body"))
         | Some body =>
             image_id <- lift (py_get body "id" JNull) ;;
             if negb (truthy image_id) then
               lift (response 400 (error_body "Missing id in body"))
             else
               item <- table_get_item e image_id ;;
               if item_falsy item then
                 lift (response 404 (error_body "Image not found"))
               else
                 let item := default [] item in
                 file_name <-
                   match assoc_get "file_name" item with
                   | Some v => ret v
                   | None => raise (Exn KeyError "'file_name'")
                   end ;;
                 s3_delete_object e file_name ;;
                 table_delete_item e image_id ;;
                 lift (response 200
                        (JObj [("message", JStr "Deleted successfully");
                               ("id", image_id)]))
         end)
    client_error_handler.

End Handlers.

(** ** A decoder and an encoder for plain JSON texts

    [json_loads_plain] decodes the JSON texts that have no escape sequence
    in a string and no fraction or exponent in a number: on such a text it
    returns what [json.loads] returns, and [None] on every other text.
    [json_dumps_plain] writes such a value the way [json.dumps] does.  They
    serve to run the handlers on concrete requests. *)

Definition is_ws (c : ascii) : bool :=
  let n := N_of_ascii c in
  ((n =? 32) || (n =? 9) || (n =? 10) || (n =? 13))%N.

Definition is_digit (c : ascii) : bool :=
  let n := N_of_ascii c in
  ((48 <=? n) && (n <=? 57))%N.

Definition quote_char : ascii := "034"%char.

Definition backslash_char : ascii := "092"%char.

Fixpoint skip_ws (s : string) : string :=
  match s with
  | String c rest => if is_ws c then skip_ws rest else s
  | EmptyString => s
  end.

Fixpoint strip_prefix (p s : string) : option string :=
  match p, s with
  | EmptyString, _ => Some s
  | String a p', String b s' => if Ascii.eqb a b then strip_prefix p' s' else None
  | String _ _, EmptyString => None
  end.

(** The characters of a string literal after its opening quote, up to the
    closing one. *)
Fixpoint scan_string (s : string) : option (string * string) :=
  match s with
  | EmptyString => None
  | String c rest =>
      if Ascii.eqb c quote_char then Some (EmptyString, rest)
      else if Ascii.eqb c backslash_char || (N_of_ascii c <? 32)%N then None
      else
        match scan_string rest with
        | Some (lit, rest') => Some (String c lit, rest')
        | None => None
        end
  end.

Fixpoint scan_digits (s : string) (acc : Z) : Z * string :=
  match s with
  | String c rest =>
      if is_digit c then scan_digits rest (acc * 10 + (Z.of_N (N_of_ascii c) - 48))
      else (acc, s)
  | EmptyString => (acc, s)
  end.

Definition scan_int (s : string) : option (json * string) :=
  let '(neg, s1) :=
    match s with
    | String "-" rest => (true, rest)
    | _ => (false, s)
    end in
  match s1 with
  | String c rest =>
      if is_digit c then
        let '(v, rest') := if Ascii.eqb c "0" then (0, rest) else scan_digits s1 0 in
        match rest' with
        | String "." _ | String "e" _ | String "E" _ => None
        | _ => Some (JInt (if neg then - v else v), rest')
        end
      else None
  | EmptyString => None
  end.

Fixpoint parse_value (fuel : nat) (s : string) : option (json * string) :=
  match fuel with
  | O => None
  | S fuel =>
      match s with
      | String "[" rest =>
          match skip_ws rest with
          | String "]" rest' => Some (JArr [], rest')
          | rest' => parse_elements fuel rest' []
          end
      | String "{" rest =>
          match skip_ws rest with
          | String "}" rest' => Some (JObj [], rest')
          | rest' => parse_members fuel rest' []
          end
      | String "n" _ => pair JNull <$> strip_prefix "null" s
      | String "t" _ => pair (JBool true) <$> strip_prefix "true" s
      | String "f" _ => pair (JBool false) <$> strip_prefix "false" s
      | String c rest =>
          if Ascii.eqb c quote_char then
            match scan_string rest with
            | Some (lit, rest') => Some (JStr lit, rest')
            | None => None
            end
          else scan_int s
      | EmptyString => None
      end
  end
with parse_elements (fuel : nat) (s : string) (acc : list json) : option (json * string) :=
  match fuel with
  | O => None
  | S fuel =>
      match parse_value fuel s with
      | Some (v, rest) =>
          match skip_ws rest with
          | String "," rest' => parse_elements fuel (skip_ws rest') (acc ++ [v])
          | String "]" rest' => Some (JArr (acc ++ [v]), rest')
          | _ => None
          end
      | None => None
      end
  end
with parse_members (fuel : nat) (s : string) (acc : list (string * json))
  : option (json * string) :=
  match fuel with
  | O => None
  | S fuel =>
      match s with
      | String c rest =>
          if Ascii.eqb c quote_char then
            match scan_string rest with
            | Some (key, rest1) =>
                match skip_ws rest1 with
                | String ":" rest2 =>
                    match parse_value fuel (skip_ws rest2) with
                    | Some (v, rest3) =>
                        match skip_ws rest3 with
                        | String "," rest4 =>
                            parse_members fuel (skip_ws rest4) (assoc_set key v acc)
                        | String "}" rest4 => Some (JObj (assoc_set key v acc), rest4)
                        | _ => None
                        end
                    | None => None
                    end
                | _ => None
                end
            | None => None
            end
          else None
      | EmptyString => None
      end
  end.

Definition json_loads_plain (s : string) : option json :=
  match parse_value (S (String.length s)) (skip_ws s) with
  | Some (v, rest) =>
      match skip_ws rest with
      | EmptyString => Some v
      | String _ _ => None
      end
  | None => None
  end.

Fixpoint is_plain_text (s : string) : bool :=
  match s with
  | EmptyString => true
  | String c rest =>
      negb (Ascii.eqb c quote_char) && negb (Ascii.eqb c backslash_char)
      && (32 <=? N_of_ascii c)%N && (N_of_ascii c <? 127)%N && is_plain_text rest
  end.

Definition quoted (s : string) : option string :=
  if is_plain_text s then Some (String quote_char (s +:+ String quote_char EmptyString))
  else None.

Definition decimal (z : Z) : string :=
  DecimalString.NilZero.string_of_int (Z.to_int z).

(** [json.dumps(v)] for a value without floats whose strings need no
    escape; [None] for any other value. *)
Fixpoint json_dumps_plain (v : json) : option string :=
  match v with
  | JNull => Some "null"
  | JBool true => Some "true"
  | JBool false => Some "false"
  | JInt z => Some (decimal z)
  | JFloat _ | JDecimal _ => None
  | JStr s => quoted s
  | JArr l =>
      inner ←
        (fix elements (l : list json) : option string :=
           match l with
           | [] => Some EmptyString
           | [x] => json_dumps_plain x
           | x :: rest =>
               sx ← json_dumps_plain x;
               sr ← elements rest;
               Some (sx +:+ ", " +:+ sr)
           end) l;
      Some ("[" +:+ inner +:+ "]")
  | JObj d =>
      inner ←
        (fix members (d : list (string * json)) : option string :=
           match d with
           | [] => Some EmptyString
           | [(k, x)] =>
               sk ← quoted k;
               sx ← json_dumps_plain x;
               Some (sk +:+ ": " +:+ sx)
           | (k, x) :: rest =>
               sk ← quoted k;
               sx ← json_dumps_plain x;
               sr ← members rest;
               Some (sk +:+ ": " +:+ sx +:+ ", " +:+ sr)
           end) d;
      Some ("{" +:+ inner +:+ "}")
  end.

(** ** Vocabulary of the statements *)

(** The three facts about a character of the alphabet that the decoder
    uses, as one boolean. *)
Definition b64_char_ok (n : N) : bool :=
  match b64_index (b64_char n) with
  | Some m => (m =? n)%N
  | None => false
  end
  && negb (Ascii.eqb (b64_char n) "="%char)
  && is_ascii (b64_char n).

(** A calendar date as text: ten characters, YYYY-MM-DD, digits around two
    hyphens and nothing after the day. *)
Definition iso_date_shape (s : string) : bool :=
  match list_ascii_of_string s with
  | [y1; y2; y3; y4; h1; m1; m2; h2; d1; d2] =>
      forallb is_digit [y1; y2; y3; y4; m1; m2; d1; d2]
      && Ascii.eqb h1 "-" && Ascii.eqb h2 "-"
  | _ => false
  end.


Definition in_b64_alphabet (c : ascii) : bool :=
  match b64_index c with
  | Some _ => true
  | None => false
  end.

(** A valid base64 string (RFC 4648, section 4): characters of the alphabet
    in groups of four, the last group possibly ending in one or two [=]. *)
Fixpoint valid_base64 (s : string) : bool :=
  match s with
  | EmptyString => true
  | String a (String b (String c (String d rest))) =>
      in_b64_alphabet a && in_b64_alphabet b
      && match rest with
         | EmptyString =>
             (in_b64_alphabet c || Ascii.eqb c "=")
             && (in_b64_alphabet d || Ascii.eqb d "=")
             && (in_b64_alphabet c || negb (in_b64_alphabet d))
         | String _ _ => in_b64_alphabet c && in_b64_alphabet d && valid_base64 rest
         end
  | _ => false
  end.

(** The calendar date of the host's local time, and the UTC one. *)
Definition local_date (e : env) : Z * Z * Z :=
  civil_from_days ((clock e + utc_offset e) / 86400).

Definition utc_date (e : env) : Z * Z * Z := civil_from_days (clock e / 86400).

(** The status an exception leaving the try block of get_image or
    delete_image is mapped to. *)
Definition status_of_exn (x : exn) : Z := if is_ClientError x then 404 else 500.

(** A step that leaves the stores as it found them, whatever it returns or
    raises. *)
Definition read_only {A : Type} (m : M A) : Prop :=
  forall (w : stores) (r : result A) (w' : stores), m w = (r, w') -> w' = w.

(** A handler that, when it returns, answers with one of the status codes
    [codes]. *)
Definition answers (codes : list Z) (m : M envelope) : Prop :=
  forall (w : stores) (r : envelope) (w' : stores),
    m w = (Ok r, w') -> In (statusCode r) codes.

(** The exception of [s3.get_object] for a key the bucket does not hold. *)
Definition no_such_key : exn :=
  Exn ClientError
    "An error occurred (NoSuchKey) when calling the GetObject operation: The specified key does not exist.".



(** ** Concrete surroundings and requests *)

Definition bytes_of_text (s : string) : list byte :=
  byte_of_ascii <$> list_ascii_of_string s.

Definition no_fault : store_op -> option exn := fun _ => None.

(** The stores answer every call; the clock reads 2025-10-05 23:30:00 UTC on
    a host whose zone is UTC. *)
Definition calm : env :=
  {| fault := no_fault; clock := 1759707000; utc_offset := 0; entropy := 12345 |}.

(** The same instant on a host one hour east of UTC. *)
Definition calm_east : env :=
  {| fault := no_fault; clock := 1759707000; utc_offset := 3600; entropy := 12345 |}.

Definition empty_stores : stores := {| bucket := ∅; table := ∅ |}.

#[global] Instance store_op_eq_dec : EqDecision store_op.
Proof. solve_decision. Defined.

(** As [calm], but the store refuses the call [op] with the exception [x]. *)
Definition outage (op : store_op) (x : exn) : env :=
  {| fault := fun o => if decide (o = op) then Some x else None;
     clock := 1759707000; utc_offset := 0; entropy := 12345 |}.

(** An error response of the service, and a failure to reach it. *)
Definition service_error : exn :=
  Exn ClientError
    "An error occurred (InternalServerError) when calling the operation: Internal Server Error".

Definition connection_error : exn :=
  Exn BotoCoreError "Could not connect to the endpoint URL".

Definition image_id : string := "00000000-0000-4000-8000-000000003039".

(** The stores after one upload of the two bytes of [hi] as [a.png]. *)
Definition one_image : stores :=
  {| bucket := {[ "a.png" := bytes_of_text "hi" ]};
     table := {[ image_id := [("id", JStr image_id); ("file_name", JStr "a.png");
                              ("metadata", JObj []);
                              ("created_at", JStr "2025-10-05")] ]} |}.

Definition request (method : string) (body_dict : json) : event :=
  {| httpMethod := Some method;
     body := json_dumps_plain body_dict;
     queryStringParameters := QNull |}.

Definition query (params : list (string * string)) : event :=
  {| httpMethod := Some "GET";
     body := None;
     queryStringParameters := QMap (list_to_map params) |}.

(** The exceptions the test suite makes the stores raise. *)
Definition s3_failed : exn := Exn OtherException "S3 failed".

Definition dynamodb_failed : exn := Exn OtherException "DynamoDB failed".

Definition scan_failed : exn := Exn OtherException "Scan failed".

Definition upload_hi : event :=
  request "POST"
    (JObj [("file_name", JStr "a.png");
           ("file_content", JStr (b64encode (bytes_of_text "hi")))]).

Definition delete_hi : event := request "DELETE" (JObj [("id", JStr image_id)]).

(** The stores after an upload whose metadata holds a number. *)
Definition sized_image : stores :=
  {| bucket := {[ "a.png" := bytes_of_text "hi" ]};
     table := {[ image_id := [("id", JStr image_id); ("file_name", JStr "a.png");
                              ("metadata", JObj [("size", JInt 2)]);
                              ("created_at", JStr "2025-10-05")] ]} |}.

(** A second record, under another id, for the blob of [one_image]. *)
Definition other_id : string := "00000000-0000-4000-8000-00000000d431".

Definition two_images : stores :=
  {| bucket := bucket one_image;
     table := <[ other_id := [("id", JStr other_id); ("file_name", JStr "a.png");
                              ("metadata", JObj []);
                              ("created_at", JStr "2025-10-06")] ]>
                (table one_image) |}.

(** A day after [calm], with other random bits. *)
Definition next_day : env :=
  {| fault := no_fault; clock := 1759793400; utc_offset := 0; entropy := 54321 |}.

(** The same file name as [upload_hi], another content. *)
Definition upload_ho : event :=
  request "POST"
    (JObj [("file_name", JStr "a.png");
           ("file_content", JStr (b64encode (bytes_of_text "ho")))]).





(** * Properties *)

Ltac Zify.zify_post_hook ::= Z.to_euclidean_division_equations.

(** ** base64: decoding an encoding *)

Lemma b64_char_ok_all : forallb b64_char_ok (N.of_nat <$> seq 0 64) = true.
Proof. vm_compute. reflexivity. Qed.

Lemma b64_char_ok_lt n : (n < 64)%N -> b64_char_ok n = true.
Proof.
  intros Hn.
  apply (proj1 (forallb_forall _ _) b64_char_ok_all).
  apply in_map_iff. exists (N.to_nat n). split; [lia|].
  apply in_seq. lia.
Qed.

Lemma b64_index_char n : (n < 64)%N -> b64_index (b64_char n) = Some n.
Proof.
  intros Hn. pose proof (b64_char_ok_lt n Hn) as H.
  unfold b64_char_ok in H.
  apply andb_prop in H as [H _]. apply andb_prop in H as [H _].
  destruct (b64_index (b64_char n)) as [m|]; [|discriminate].
  apply N.eqb_eq in H. congruence.
Qed.

Lemma b64_char_not_pad n : (n < 64)%N -> Ascii.eqb (b64_char n) "="%char = false.
Proof.
  intros Hn. pose proof (b64_char_ok_lt n Hn) as H.
  unfold b64_char_ok in H.
  apply andb_prop in H as [H _]. apply andb_prop in H as [_ H].
  now apply negb_true_iff in H.
Qed.

Lemma b64_char_ascii n : (n < 64)%N -> is_ascii (b64_char n) = true.
Proof.
  intros Hn. pose proof (b64_char_ok_lt n Hn) as H.
  unfold b64_char_ok in H. now apply andb_prop in H as [_ H].
Qed.

Lemma byte_of_to_N (a : byte) (n : N) : n = Byte.to_N a -> byte_of_N n = a.
Proof.
  intros ->. unfold byte_of_N.
  pose proof (Byte.to_N_bounded a).
  rewrite N.mod_small by lia. now rewrite Byte.of_to_N.
Qed.

(** One step of the decoder on a character of the alphabet. *)
Lemma a2b_base64_char n rest quad_pos pads leftchar out :
  (n < 64)%N ->
  a2b_base64 (String (b64_char n) rest) quad_pos pads leftchar out =
  match quad_pos with
  | 0%N => a2b_base64 rest 1 0 n out
  | 1%N => a2b_base64 rest 2 0 (n mod 16) (out ++ [byte_of_N (leftchar * 4 + n / 16)])
  | 2%N => a2b_base64 rest 3 0 (n mod 4) (out ++ [byte_of_N (leftchar * 16 + n / 4)])
  | _ => a2b_base64 rest 0 0 0 (out ++ [byte_of_N (leftchar * 64 + n)])
  end%N.
Proof.
  intros Hn. cbn [a2b_base64].
  now rewrite b64_char_not_pad, b64_index_char.
Qed.

(** Induction on a list three elements at a time. *)
Lemma list_ind3 {A : Type} (P : list A -> Prop) :
  P [] -> (forall a, P [a]) -> (forall a b, P [a; b]) ->
  (forall a b c rest, P rest -> P (a :: b :: c :: rest)) ->
  forall l, P l.
Proof.
  intros H0 H1 H2 H3.
  assert (H : forall l, P l /\ (forall a, P (a :: l)) /\ (forall a b, P (a :: b :: l))).
  { induction l as [|c l (IH0 & IH1 & IH2)]; [now auto|].
    split; [apply IH1|]. split; [intros a; apply IH2|]. intros a b. now apply H3. }
  intros l. apply H.
Qed.

Lemma a2b_base64_encode data :
  forall out : list byte, a2b_base64 (b64encode data) 0 0 0 out = Ok (out ++ data)%list.
Proof.
  induction data as [|a|a b|a b c rest IH] using list_ind3; intros out.
  - cbn. now rewrite app_nil_r.
  - pose proof (Byte.to_N_bounded a).
    cbn [b64encode].
    rewrite a2b_base64_char by lia. rewrite a2b_base64_char by lia.
    cbn. f_equal. f_equal. f_equal. apply byte_of_to_N. lia.
  - pose proof (Byte.to_N_bounded a). pose proof (Byte.to_N_bounded b).
    cbn [b64encode].
    rewrite a2b_base64_char by lia. rewrite a2b_base64_char by lia.
    rewrite a2b_base64_char by lia.
    cbn. rewrite <- app_assoc. cbn. f_equal. f_equal.
    f_equal; [|f_equal]; apply byte_of_to_N; lia.
  - pose proof (Byte.to_N_bounded a). pose proof (Byte.to_N_bounded b).
    pose proof (Byte.to_N_bounded c).
    cbn [b64encode].
    rewrite a2b_base64_char by lia. rewrite a2b_base64_char by lia.
    rewrite a2b_base64_char by lia. rewrite a2b_base64_char by lia.
    rewrite IH. rewrite <- !app_assoc. cbn. f_equal. f_equal.
    f_equal; [|f_equal; [|f_equal]]; apply byte_of_to_N; lia.
Qed.

Lemma b64encode_ascii data : all_ascii (b64encode data) = true.
Proof.
  induction data as [|a|a b|a b c rest IH] using list_ind3.
  - reflexivity.
  - pose proof (Byte.to_N_bounded a).
    cbn [b64encode all_ascii]. rewrite !b64_char_ascii by lia. reflexivity.
  - pose proof (Byte.to_N_bounded a). pose proof (Byte.to_N_bounded b).
    cbn [b64encode all_ascii]. rewrite !b64_char_ascii by lia. reflexivity.
  - pose proof (Byte.to_N_bounded a). pose proof (Byte.to_N_bounded b).
    pose proof (Byte.to_N_bounded c).
    cbn [b64encode all_ascii]. rewrite !b64_char_ascii by lia. now rewrite IH.
Qed.

(** [base64.b64decode(base64.b64encode(data).decode()) == data] *)
Lemma b64decode_b64encode data : b64decode (JStr (b64encode data)) = Ok data.
Proof.
  unfold b64decode. rewrite b64encode_ascii. apply a2b_base64_encode.
Qed.

Lemma b64encode_empty data : b64encode data = EmptyString -> data = [].
Proof. destruct data as [|a [|b [|c rest]]]; [reflexivity|discriminate..]. Qed.

Lemma in_b64_alphabet_char n : (n < 64)%N -> in_b64_alphabet (b64_char n) = true.
Proof. intros Hn. unfold in_b64_alphabet. now rewrite b64_index_char. Qed.

(** What [b64encode] writes is valid base64. *)
Lemma valid_base64_b64encode data : valid_base64 (b64encode data) = true.
Proof.
  induction data as [|a|a b|a b c rest IH] using list_ind3.
  - reflexivity.
  - pose proof (Byte.to_N_bounded a).
    cbn [b64encode valid_base64]. rewrite !in_b64_alphabet_char by lia. reflexivity.
  - pose proof (Byte.to_N_bounded a). pose proof (Byte.to_N_bounded b).
    cbn [b64encode valid_base64]. rewrite !in_b64_alphabet_char by lia. reflexivity.
  - pose proof (Byte.to_N_bounded a). pose proof (Byte.to_N_bounded b).
    pose proof (Byte.to_N_bounded c).
    cbn [b64encode]. cbn [valid_base64]. fold valid_base64.
    rewrite !in_b64_alphabet_char by lia.
    destruct (b64encode rest) eqn:Hrest; [reflexivity|exact IH].
Qed.

(** ** Identifiers and dates are well-formed text *)

Lemma length_digits base n v : String.length (digits base n v) = n.
Proof. induction n as [|n IH]; [reflexivity|]. cbn [digits]. cbn. now rewrite IH. Qed.

Lemma length_substring_ge (n m : nat) (s : string) :
  (n + m <= String.length s)%nat -> String.length (substring n m s) = m.
Proof.
  revert m s. induction n as [|n IH]; intros m s.
  - revert s. induction m as [|m IHm]; intros [|c s] H; cbn in *;
      try reflexivity; try lia.
    rewrite IHm by lia. reflexivity.
  - destruct s as [|c s]; cbn; intros H; [lia|]. apply IH. lia.
Qed.

Lemma length_append (s t : string) :
  String.length (s +:+ t) = (String.length s + String.length t)%nat.
Proof.
  induction s as [|c s IH]; [reflexivity|].
  change (String c s +:+ t) with (String c (s +:+ t)).
  cbn [String.length]. now rewrite IH.
Qed.

(** The text of a UUID has 36 characters; in particular it is not empty. *)
Lemma length_uuid_str i : String.length (uuid_str i) = 36%nat.
Proof.
  unfold uuid_str. rewrite !length_append.
  rewrite !length_substring_ge by (rewrite length_digits; lia).
  reflexivity.
Qed.

Lemma uuid_str_truthy i : str_is_empty (uuid_str i) = false.
Proof.
  pose proof (length_uuid_str i) as H.
  destruct (uuid_str i); [discriminate|reflexivity].
Qed.

Lemma is_digit_decimal v : is_digit (digit_char (v mod 10)) = true.
Proof.
  pose proof (Z.mod_pos_bound v 10 eq_refl) as H.
  assert (Hc : forallb (fun k => is_digit (digit_char k)) (Z.of_nat <$> seq 0 10) = true)
    by (vm_compute; reflexivity).
  apply (proj1 (forallb_forall _ _) Hc).
  apply in_map_iff. exists (Z.to_nat (v mod 10)). split; [lia|].
  apply in_seq. lia.
Qed.

Lemma date_isoformat_shape ymd : iso_date_shape (date_isoformat ymd) = true.
Proof.
  destruct ymd as [[y m] d]. unfold date_isoformat, iso_date_shape.
  cbv [digits String.append list_ascii_of_string].
  cbn [forallb]. rewrite !is_digit_decimal. reflexivity.
Qed.

(** ** Running the handlers *)

Arguments uuid_str : simpl never.
Arguments uuid4 : simpl never.
Arguments b64decode : simpl never.
Arguments b64encode : simpl never.
Arguments date_isoformat : simpl never.
Arguments datetime_now_date : simpl never.

Ltac unfold_monad :=
  unfold store_call, client_error_handler, try_except, bind, lift, ret, raise.

(** A handler whose except clauses all return never raises. *)
Lemma try_except_returns {A : Type} (m : M A) (h : exn -> M A) (w : stores) :
  (forall x w1, exists a w2, h x w1 = (Ok a, w2)) ->
  exists a w2, try_except m h w = (Ok a, w2).
Proof.
  intros Hh. unfold try_except.
  destruct (m w) as [[a|x] w1]; [now exists a, w1|apply Hh].
Qed.

Lemma catch_all_returns (x : exn) (w1 : stores) :
  exists a w2, lift (response 500 (error_body (exn_str x))) w1 = (Ok a, w2).
Proof. now eexists _, _. Qed.

Lemma client_error_handler_returns (x : exn) (w1 : stores) :
  exists a w2, client_error_handler x w1 = (Ok a, w2).
Proof.
  unfold client_error_handler. destruct (is_ClientError x); now eexists _, _.
Qed.

(** C9.  Envelope totality: whatever the event, the decoder, the stores and
    the exceptions the store calls raise, each of the four handlers returns
    an envelope, a status code with a JSON text as body, and raises nothing.
    The except clauses catch every exception of the try block, and the
    response they build is the text of a string, which [json.dumps] always
    writes. *)
Theorem handlers_return_envelope
  (json_loads : string -> option json) (e : env) (ev : event) (w : stores) :
  (exists r w', upload_image json_loads e ev w = (Ok r, w'))
  /\ (exists r w', list_images e ev w = (Ok r, w'))
  /\ (exists r w', get_image e ev w = (Ok r, w'))
  /\ (exists r w', delete_image json_loads e ev w = (Ok r, w')).
Proof.
  repeat split.
  - apply try_except_returns, catch_all_returns.
  - apply try_except_returns, catch_all_returns.
  - apply try_except_returns, client_error_handler_returns.
  - apply try_except_returns, client_error_handler_returns.
Qed.






(** C4, where the code departs from it.  An event whose
    queryStringParameters is null, as for a request without a query string,
    has no id; get_image calls [get] on None and answers 500, not 400.
    list_images guards the same read with [or {}]. *)
Theorem get_image_null_query_is_500
  (e : env) (method body : option string) (w : stores) :
  get_image e
    {| httpMethod := method; body := body; queryStringParameters := QNull |} w
  = (Ok (reply 500 (error_body "'NoneType' object has no attribute 'get'")), w).
Proof. reflexivity. Qed.

(** X1.  With the key queryStringParameters absent, or a mapping in which
    id is missing or empty, get_image answers 400 and leaves the stores as
    they were. *)
Lemma get_image_missing_id_is_400 (e : env) (ev : event) (w : stores) :
  match queryStringParameters ev with
  | QAbsent => True
  | QMap params => str_falsy (params !! "id") = true
  | QNull => False
  end ->
  get_image e ev w
  = (Ok (reply 400 (error_body "Missing id in query parameters")), w).
Proof.
  unfold get_image. unfold_monad.
  destruct (queryStringParameters ev) as [| |params]; [reflexivity|contradiction|].
  intros ->. reflexivity.
Qed.

Lemma get_image_missing_id_is_400_witness :
  get_image calm (query [("wrong_key", "123")]) empty_stores
  = (Ok (reply 400 (error_body "Missing id in query parameters")), empty_stores).
Proof.
  apply (get_image_missing_id_is_400 calm (query [("wrong_key", "123")]) empty_stores).
  reflexivity.
Defined.

(** C8, where the code departs from it.  The text [@@@@] is not base64, it
    has no character of the alphabet; [base64.b64decode] in its default
    mode skips such characters and returns the empty bytes, so the upload
    answers 200 and writes an empty blob. *)
Theorem upload_accepts_text_outside_base64 :
  let ev := request "POST"
              (JObj [("file_name", JStr "a.png"); ("file_content", JStr "@@@@")]) in
  valid_base64 "@@@@" = false
  /\ b64decode (JStr "@@@@") = Ok []
  /\ exists r w',
       upload_image json_loads_plain calm ev empty_stores = (Ok r, w')
       /\ statusCode r = 200
       /\ bucket w' !! "a.png" = Some [].
Proof.
  split; [reflexivity|]. split; [reflexivity|].
  eexists _, _. split; [vm_compute; reflexivity|].
  split; [reflexivity|]. vm_compute. reflexivity.
Qed.

(** ** A successful upload, read backwards *)

Lemma datetime_now_date_local (e : env) (today : Z * Z * Z) :
  datetime_now_date e = Ok today -> today = local_date e.
Proof.
  unfold datetime_now_date, local_date.
  destruct (civil_from_days ((clock e + utc_offset e) / 86400)) as [[y m] d].
  destruct ((1 <=? y) && (y <=? 9999)); [congruence|discriminate].
Qed.

Lemma s3_key_string (key : json) (k : string) :
  s3_key key = Ok k -> key = JStr k /\ str_is_empty k = false.
Proof.
  destruct key as [| | | |[|c s]| | |]; cbn; try discriminate.
  intros [= <-]. now split.
Qed.

Ltac unfold_monad_in H :=
  unfold store_call, client_error_handler, try_except, bind, lift, ret, raise in H.

Ltac not_200 H Hs :=
  injection H as <- <-; discriminate Hs.

(** The record and the response of an upload that answers 200, and the
    stores it leaves. *)
Lemma upload_image_200_inv
  (json_loads : string -> option json) (e : env) (ev : event) (w w' : stores)
  (r : envelope) :
  upload_image json_loads e ev w = (Ok r, w') -> statusCode r = 200 ->
  exists s d F data,
    body ev = Some s
    /\ json_loads s = Some (JObj d)
    /\ default JNull (assoc_get "file_name" d) = JStr F
    /\ str_is_empty F = false
    /\ b64decode (default JNull (assoc_get "file_content" d)) = Ok data
    /\ let id := uuid_str (uuid4 (entropy e)) in
       let it := [("id", JStr id); ("file_name", JStr F);
                  ("metadata", default (JObj []) (assoc_get "metadata" d));
                  ("created_at", JStr (date_isoformat (local_date e)))] in
       r = reply 200 (JObj [("message", JStr "Image uploaded");
                               ("file_name", JStr F); ("id", JStr id)])
       /\ w' = {| bucket := <[F := data]> (bucket w);
                  table := <[id := it]> (table w) |}.
Proof.
  intros H Hs. unfold upload_image in H. unfold_monad_in H.
  destruct (str_is (httpMethod ev) "POST"); cbn in H; [|not_200 H Hs].
  destruct (body ev) as [s|]; cbn in H; [|not_200 H Hs].
  destruct (str_is_empty s); [not_200 H Hs|].
  destruct (json_loads s) as [v|] eqn:Hv; [|not_200 H Hs].
  destruct v as [| | | | | |d|]; cbn in H; try not_200 H Hs.
  destruct (truthy (default JNull (assoc_get "file_name" d))); cbn in H;
    [|not_200 H Hs].
  destruct (truthy (default JNull (assoc_get "file_content" d))); cbn in H;
    [|not_200 H Hs].
  destruct (b64decode (default JNull (assoc_get "file_content" d)))
    as [data|x] eqn:Hdata; [|not_200 H Hs].
  unfold s3_put_object, table_put_item in H. unfold_monad_in H.
  destruct (s3_key (default JNull (assoc_get "file_name" d))) as [F|x] eqn:HF;
    [|not_200 H Hs].
  apply s3_key_string in HF as [HF HF']. rewrite HF in H.
  destruct (fault e PutObject); [not_200 H Hs|].
  destruct (datetime_now_date e) as [today|x] eqn:Hnow; [|not_200 H Hs].
  apply datetime_now_date_local in Hnow as ->.
  cbn in H.
  destruct (contains_float (default (JObj []) (assoc_get "metadata" d)));
    cbn in H; [not_200 H Hs|].
  destruct (fault e PutItem); [not_200 H Hs|].
  cbn in H. injection H as <- <-.
  exists s, d, F, data. repeat split; assumption || reflexivity.
Qed.

(** C7, amended.  For every upload that answers 200, the record written
    under the returned id has as created_at the calendar date of the host's
    local time, [datetime.now()], in the form YYYY-MM-DD with no time
    component; it is the UTC date when the host's zone has no offset. *)
Theorem upload_created_at_is_local_date
  (json_loads : string -> option json) (e : env) (ev : event) (w w' : stores)
  (r : envelope) :
  upload_image json_loads e ev w = (Ok r, w') -> statusCode r = 200 ->
  exists id it,
    py_get (response_json r) "id" JNull = Ok (JStr id)
    /\ table w' !! id = Some it
    /\ assoc_get "created_at" it = Some (JStr (date_isoformat (local_date e)))
    /\ iso_date_shape (date_isoformat (local_date e)) = true
    /\ (utc_offset e = 0 -> local_date e = utc_date e).
Proof.
  intros H Hs.
  destruct (upload_image_200_inv _ _ _ _ _ _ H Hs)
    as (s & d & F & data & _ & _ & _ & _ & _ & Hr & Hw).
  subst r w'. eexists _, _. split; [reflexivity|].
  split; [apply lookup_insert_eq|]. split; [reflexivity|].
  split; [apply date_isoformat_shape|].
  intros H0. unfold local_date, utc_date. now rewrite H0, Z.add_0_r.
Qed.

Lemma upload_created_at_is_local_date_witness :
  exists id it,
    id = "00000000-0000-4000-8000-000000003039"
    /\ table (snd (upload_image json_loads_plain calm_east
                     (request "POST"
                        (JObj [("file_name", JStr "a.png");
                               ("file_content", JStr "aGk=")]))
                     empty_stores)) !! id = Some it
    /\ assoc_get "created_at" it = Some (JStr "2025-10-06").
Proof.
  destruct (upload_created_at_is_local_date json_loads_plain calm_east
              (request "POST"
                 (JObj [("file_name", JStr "a.png"); ("file_content", JStr "aGk=")]))
              empty_stores
              (snd (upload_image json_loads_plain calm_east
                      (request "POST"
                         (JObj [("file_name", JStr "a.png");
                                ("file_content", JStr "aGk=")]))
                      empty_stores))
              (reply 200
                 (JObj [("message", JStr "Image uploaded");
                        ("file_name", JStr "a.png");
                        ("id", JStr "00000000-0000-4000-8000-000000003039")])))
    as (id & it & Hid & Hit & Hdate & _).
  - vm_compute. reflexivity.
  - reflexivity.
  - injection Hid as <-. exists "00000000-0000-4000-8000-000000003039", it.
    split; [reflexivity|]. split; [exact Hit|]. exact Hdate.
Defined.

(** C7 as stated fails on a host whose zone is not UTC: at 23:30 UTC on
    2025-10-05, one hour east of UTC, the record gets 2025-10-06. *)
Lemma created_at_is_not_the_utc_date :
  let ev := request "POST"
              (JObj [("file_name", JStr "a.png"); ("file_content", JStr "aGk=")]) in
  exists r w' it,
    upload_image json_loads_plain calm_east ev empty_stores = (Ok r, w')
    /\ statusCode r = 200
    /\ table w' !! "00000000-0000-4000-8000-000000003039" = Some it
    /\ assoc_get "created_at" it = Some (JStr "2025-10-06")
    /\ date_isoformat (utc_date calm_east) = "2025-10-05".
Proof.
  eexists _, _, _. split; [vm_compute; reflexivity|].
  split; [reflexivity|]. split; [vm_compute; reflexivity|].
  split; reflexivity.
Qed.

(** C1.  Round trip: when an upload whose body is a JSON object with
    file_name [F] and file_content the base64 text of [data] answers 200
    with the id [id], a later get_image for [id] answers 200 with that
    file_name and that file_content, on any stores that still hold what the
    upload left under [id] in the table and under [F] in the bucket, and
    whose two reads do not fail. *)
Theorem upload_then_get_round_trip
  (json_loads : string -> option json) (e : env) (ev : event) (w w1 : stores)
  (r : envelope) (d : item) (F : string) (data : list byte) :
  upload_image json_loads e ev w = (Ok r, w1) -> statusCode r = 200 ->
  json_loads (default EmptyString (body ev)) = Some (JObj d) ->
  assoc_get "file_name" d = Some (JStr F) ->
  assoc_get "file_content" d = Some (JStr (b64encode data)) ->
  exists id created_at,
    response_json r
    = JObj [("message", JStr "Image uploaded"); ("file_name", JStr F);
            ("id", JStr id)]
    /\ forall (e2 : env) (ev2 : event) (w2 : stores) (params : gmap string string),
         queryStringParameters ev2 = QMap params -> params !! "id" = Some id ->
         fault e2 GetItem = None -> fault e2 GetObject = None ->
         table w2 !! id = table w1 !! id -> bucket w2 !! F = bucket w1 !! F ->
         get_image e2 ev2 w2
         = (Ok (reply 200
                  (JObj [("id", JStr id); ("file_name", JStr F);
                         ("file_content", JStr (b64encode data));
                         ("created_at", created_at)])),
            w2).
Proof.
  intros H Hs Hd HF Hc.
  destruct (upload_image_200_inv _ _ _ _ _ _ H Hs)
    as (s & d' & F' & data' & Hb & Hd' & HF' & HFne & Hdata & Hr & Hw).
  rewrite Hb in Hd. cbn in Hd. rewrite Hd' in Hd. injection Hd as ->.
  rewrite HF in HF'. cbn in HF'. injection HF' as <-.
  rewrite Hc in Hdata. cbn in Hdata. rewrite b64decode_b64encode in Hdata.
  injection Hdata as <-.
  exists (uuid_str (uuid4 (entropy e))), (JStr (date_isoformat (local_date e))).
  split; [now subst r|].
  intros e2 ev2 w2 params Hq Hid Hg Ho Ht Hk.
  unfold get_image, table_get_item, s3_get_object. unfold_monad.
  rewrite Hq, Hid. cbn. rewrite uuid_str_truthy, Hg. cbn.
  rewrite Ht, Hw. cbn. rewrite lookup_insert_eq. cbn.
  destruct F as [|c F]; [discriminate HFne|]. cbn.
  rewrite Ho, Hk, Hw. cbn. rewrite lookup_insert_eq. reflexivity.
Qed.

Lemma upload_then_get_round_trip_witness :
  exists id created_at,
    response_json
      (reply 200
         (JObj [("message", JStr "Image uploaded"); ("file_name", JStr "a.png");
                ("id", JStr "00000000-0000-4000-8000-000000003039")]))
    = JObj [("message", JStr "Image uploaded"); ("file_name", JStr "a.png");
            ("id", JStr id)]
    /\ forall (e2 : env) (ev2 : event) (w2 : stores) (params : gmap string string),
         queryStringParameters ev2 = QMap params -> params !! "id" = Some id ->
         fault e2 GetItem = None -> fault e2 GetObject = None ->
         table w2 !! id
         = table (snd (upload_image json_loads_plain calm
                         (request "POST"
                            (JObj [("file_name", JStr "a.png");
                                   ("file_content", JStr "aGk=")]))
                         empty_stores)) !! id ->
         bucket w2 !! "a.png"
         = bucket (snd (upload_image json_loads_plain calm
                          (request "POST"
                             (JObj [("file_name", JStr "a.png");
                                    ("file_content", JStr "aGk=")]))
                          empty_stores)) !! "a.png" ->
         get_image e2 ev2 w2
         = (Ok (reply 200
                  (JObj [("id", JStr id); ("file_name", JStr "a.png");
                         ("file_content", JStr (b64encode (bytes_of_text "hi")));
                         ("created_at", created_at)])),
            w2).
Proof.
  apply (upload_then_get_round_trip json_loads_plain calm
           (request "POST"
              (JObj [("file_name", JStr "a.png"); ("file_content", JStr "aGk=")]))
           empty_stores
           (snd (upload_image json_loads_plain calm
                   (request "POST"
                      (JObj [("file_name", JStr "a.png");
                             ("file_content", JStr "aGk=")]))
                   empty_stores))
           (reply 200
              (JObj [("message", JStr "Image uploaded"); ("file_name", JStr "a.png");
                     ("id", JStr "00000000-0000-4000-8000-000000003039")]))
           [("file_name", JStr "a.png"); ("file_content", JStr "aGk=")]
           "a.png" (bytes_of_text "hi")).
  - vm_compute. reflexivity.
  - reflexivity.
  - vm_compute. reflexivity.
  - reflexivity.
  - reflexivity.
Defined.

(** ** Exceptions of the store calls *)

Lemma client_error_handler_status (x : exn) (w : stores) :
  client_error_handler x w
  = (Ok (reply (status_of_exn x) (error_body (exn_str x))), w).
Proof.
  unfold client_error_handler, status_of_exn. now destruct (is_ClientError x).
Qed.

Lemma assoc_get_read_back (k : string) (it : item) :
  assoc_get k (read_back_item it) = read_back <$> assoc_get k it.
Proof.
  induction it as [|[k' v] it IH]; [reflexivity|].
  cbn. destruct (String.eqb k k'); [reflexivity|exact IH].
Qed.

Lemma item_truthy_read_back (k : string) (v : json) (it : item) :
  assoc_get k it = Some v -> item_falsy (Some (read_back_item it)) = false.
Proof. destruct it; [discriminate|reflexivity]. Qed.

(** C6, amended.  In get_image an exception raised by either store call,
    the lookup of the record or the fetch of the blob, is mapped by its
    class: a ClientError to 404, any other exception to 500. *)
Theorem get_image_error_mapping
  (e : env) (ev : event) (w : stores) (params : gmap string string)
  (k : string) (x : exn) :
  queryStringParameters ev = QMap params -> params !! "id" = Some k ->
  str_is_empty k = false ->
  let failed := (Ok (reply (status_of_exn x) (error_body (exn_str x))), w) in
  (fault e GetItem = Some x -> get_image e ev w = failed)
  /\ (fault e GetItem = None ->
      forall (it : item) (fn : string),
        table w !! k = Some it -> assoc_get "file_name" it = Some (JStr fn) ->
        str_is_empty fn = false -> fault e GetObject = Some x ->
        get_image e ev w = failed).
Proof.
  intros Hq Hid Hk. cbv zeta.
  unfold get_image, table_get_item, s3_get_object.
  unfold store_call, try_except, bind, lift, ret, raise.
  rewrite Hq, Hid. cbn. rewrite Hk. split.
  - intros ->. apply client_error_handler_status.
  - intros -> it fn Hit Hfn Hne Ho. cbn. rewrite Hit.
    cbn -[assoc_get read_back_item item_falsy].
    rewrite (item_truthy_read_back _ _ _ Hfn), assoc_get_read_back, Hfn.
    destruct fn as [|c fn]; [discriminate Hne|]. cbn. rewrite Ho.
    apply client_error_handler_status.
Qed.

Lemma get_image_error_mapping_witness :
  get_image (outage GetItem service_error) (query [("id", image_id)]) one_image
  = (Ok (reply 404 (error_body (exn_str service_error))), one_image)
  /\ get_image (outage GetObject connection_error) (query [("id", image_id)]) one_image
     = (Ok (reply 500 (error_body (exn_str connection_error))), one_image).
Proof.
  split.
  - apply (proj1 (get_image_error_mapping (outage GetItem service_error)
                    (query [("id", image_id)]) one_image
                    (list_to_map [("id", image_id)]) image_id service_error
                    eq_refl eq_refl eq_refl)).
    reflexivity.
  - apply (proj2 (get_image_error_mapping (outage GetObject connection_error)
                    (query [("id", image_id)]) one_image
                    (list_to_map [("id", image_id)]) image_id connection_error
                    eq_refl eq_refl eq_refl) eq_refl
             [("id", JStr image_id); ("file_name", JStr "a.png");
              ("metadata", JObj []); ("created_at", JStr "2025-10-05")]
             "a.png");
      reflexivity.
Defined.

(** C6 as stated fails on the lookup: a ClientError raised by the Metadata
    Store point lookup gets 404, not 500. *)
Lemma get_image_lookup_client_error_is_404 :
  exn_cls service_error = ClientError
  /\ fault (outage GetItem service_error) GetItem = Some service_error
  /\ get_image (outage GetItem service_error) (query [("id", image_id)]) one_image
     = (Ok (reply 404 (error_body (exn_str service_error))), one_image).
Proof. repeat split. Qed.

(** C5, amended.  In delete_image an exception raised by any of the three
    store calls, the lookup of the record, the delete of the blob or the
    delete of the record, is mapped by its class: a ClientError to 404, any
    other exception to 500.  When the delete of the record raises, the blob
    is already gone. *)
Theorem delete_image_error_mapping
  (json_loads : string -> option json) (e : env) (ev : event) (w : stores)
  (s : string) (d : item) (k : string) (x : exn) :
  str_is (httpMethod ev) "DELETE" = true ->
  body ev = Some s -> str_is_empty s = false ->
  json_loads s = Some (JObj d) ->
  assoc_get "id" d = Some (JStr k) -> str_is_empty k = false ->
  let failed w' := (Ok (reply (status_of_exn x) (error_body (exn_str x))), w') in
  (fault e GetItem = Some x -> delete_image json_loads e ev w = failed w)
  /\ (fault e GetItem = None ->
      forall (it : item) (fn : string),
        table w !! k = Some it -> assoc_get "file_name" it = Some (JStr fn) ->
        str_is_empty fn = false ->
        (fault e DeleteObject = Some x -> delete_image json_loads e ev w = failed w)
        /\ (fault e DeleteObject = None -> fault e DeleteItem = Some x ->
            delete_image json_loads e ev w
            = failed {| bucket := delete fn (bucket w); table := table w |})).
Proof.
  intros Hm Hb Hs Hd Hid Hk. cbv zeta.
  unfold delete_image, table_get_item, table_delete_item, s3_delete_object.
  unfold store_call, try_except, bind, lift, ret, raise.
  rewrite Hm, Hb. cbn. rewrite Hs, Hd. cbn. rewrite Hid. cbn. rewrite Hk. cbn.
  split.
  - intros ->. apply client_error_handler_status.
  - intros -> it fn Hit Hfn Hne. cbn. rewrite Hit.
    cbn -[assoc_get read_back_item item_falsy].
    rewrite (item_truthy_read_back _ _ _ Hfn), assoc_get_read_back, Hfn.
    destruct fn as [|c fn]; [discriminate Hne|]. cbn. split.
    + intros ->. apply client_error_handler_status.
    + intros -> ->. apply client_error_handler_status.
Qed.

Lemma delete_image_error_mapping_witness :
  delete_image json_loads_plain (outage DeleteItem connection_error)
    (request "DELETE" (JObj [("id", JStr image_id)])) one_image
  = (Ok (reply 500 (error_body (exn_str connection_error))),
     {| bucket := delete "a.png" (bucket one_image); table := table one_image |}).
Proof.
  apply (proj2 (proj2 (delete_image_error_mapping json_loads_plain
                  (outage DeleteItem connection_error)
                  (request "DELETE" (JObj [("id", JStr image_id)])) one_image
                  (default EmptyString (json_dumps_plain (JObj [("id", JStr image_id)])))
                  [("id", JStr image_id)] image_id connection_error
                  eq_refl eq_refl eq_refl eq_refl eq_refl eq_refl) eq_refl
                 [("id", JStr image_id); ("file_name", JStr "a.png");
                  ("metadata", JObj []); ("created_at", JStr "2025-10-05")]
                 "a.png" eq_refl eq_refl eq_refl));
    reflexivity.
Defined.

(** C5 as stated fails on the blob delete: a ClientError raised by the
    Object Store delete gets 404, not 500. *)
Lemma delete_image_blob_client_error_is_404 :
  exn_cls service_error = ClientError
  /\ fault (outage DeleteObject service_error) GetItem = None
  /\ fault (outage DeleteObject service_error) DeleteObject = Some service_error
  /\ delete_image json_loads_plain (outage DeleteObject service_error)
       (request "DELETE" (JObj [("id", JStr image_id)])) one_image
     = (Ok (reply 404 (error_body (exn_str service_error))), one_image).
Proof. repeat split. Qed.

(** ** Listing *)









(** ** The handlers on the requests of the test suite *)

(** Upload, get, delete, delete again: 200 with the id, 200 with the
    content, 200, then 404. *)
Example upload_get_delete_delete :
  upload_image json_loads_plain calm upload_hi empty_stores
  = (Ok (reply 200 (JObj [("message", JStr "Image uploaded");
                          ("file_name", JStr "a.png"); ("id", JStr image_id)])),
     one_image)
  /\ get_image calm (query [("id", image_id)]) one_image
     = (Ok (reply 200 (JObj [("id", JStr image_id); ("file_name", JStr "a.png");
                             ("file_content", JStr "aGk=");
                             ("created_at", JStr "2025-10-05")])),
        one_image)
  /\ b64decode (JStr "aGk=") = Ok (bytes_of_text "hi")
  /\ delete_image json_loads_plain calm delete_hi one_image
     = (Ok (reply 200 (JObj [("message", JStr "Deleted successfully");
                             ("id", JStr image_id)])),
        empty_stores)
  /\ delete_image json_loads_plain calm delete_hi empty_stores
     = (Ok (reply 404 (error_body "Image not found")), empty_stores).
Proof. repeat split; vm_compute; reflexivity. Qed.

Example upload_invalid_method :
  upload_image json_loads_plain calm
    {| httpMethod := Some "GET"; body := Some "{}"; queryStringParameters := QAbsent |}
    empty_stores
  = (Ok (reply 405 (error_body "Method not allowed, use POST")), empty_stores).
Proof. reflexivity. Qed.

Example upload_invalid_json :
  upload_image json_loads_plain calm
    {| httpMethod := Some "POST"; body := Some "INVALID JSON";
       queryStringParameters := QAbsent |}
    empty_stores
  = (Ok (reply 400 (error_body "Invalid JSON in body")), empty_stores).
Proof. reflexivity. Qed.

Example delete_invalid_method :
  delete_image json_loads_plain calm
    {| httpMethod := Some "POST"; body := Some "{}"; queryStringParameters := QAbsent |}
    empty_stores
  = (Ok (reply 405 (error_body "Method not allowed, use DELETE")), empty_stores).
Proof. reflexivity. Qed.

Example delete_missing_id :
  delete_image json_loads_plain calm (request "DELETE" (JObj [])) empty_stores
  = (Ok (reply 400 (error_body "Missing id in body")), empty_stores).
Proof. reflexivity. Qed.

Example get_image_wrong_key :
  get_image calm (query [("wrong_key", "123")]) empty_stores
  = (Ok (reply 400 (error_body "Missing id in query parameters")), empty_stores).
Proof. reflexivity. Qed.

Example upload_s3_failure :
  upload_image json_loads_plain (outage PutObject s3_failed) upload_hi empty_stores
  = (Ok (reply 500 (error_body "S3 failed")), empty_stores).
Proof. vm_compute. reflexivity. Qed.

(** When the table refuses the record, the blob is already written. *)
Example upload_dynamodb_failure :
  upload_image json_loads_plain (outage PutItem dynamodb_failed) upload_hi empty_stores
  = (Ok (reply 500 (error_body "DynamoDB failed")),
     {| bucket := bucket one_image; table := ∅ |}).
Proof. vm_compute. reflexivity. Qed.

Example list_images_scan_failure :
  list_images (outage Scan scan_failed)
    {| httpMethod := None; body := None; queryStringParameters := QAbsent |} one_image
  = (Ok (reply 500 (error_body "Scan failed")), one_image).
Proof. reflexivity. Qed.

(** A record whose metadata holds a number is read back with a Decimal, and
    the listing answers 500. *)
Example list_images_number_in_metadata :
  upload_image json_loads_plain calm
    (request "POST"
       (JObj [("file_name", JStr "a.png"); ("file_content", JStr "aGk=");
              ("metadata", JObj [("size", JInt 2)])]))
    empty_stores
  = (Ok (reply 200 (JObj [("message", JStr "Image uploaded");
                          ("file_name", JStr "a.png"); ("id", JStr image_id)])),
     sized_image)
  /\ list_images calm
       {| httpMethod := None; body := None; queryStringParameters := QAbsent |}
       sized_image
     = (Ok (reply 500 (error_body "Object of type Decimal is not JSON serializable")),
        sized_image).
Proof. split; vm_compute; reflexivity. Qed.

(** ** Reads leave the stores alone *)

Section ReadOnly.

Context {A : Type}.

Lemma read_only_ret (a : A) : read_only (ret a).
Proof. intros w r w' [= _ <-]. reflexivity. Qed.

Lemma read_only_raise (x : exn) : read_only (raise (A := A) x).
Proof. intros w r w' [= _ <-]. reflexivity. Qed.

Lemma read_only_lift (r : result A) : read_only (lift r).
Proof. intros w r' w' [= _ <-]. reflexivity. Qed.

Lemma read_only_bind {B : Type} (m : M B) (k : B -> M A) :
  read_only m -> (forall b, read_only (k b)) -> read_only (bind m k).
Proof.
  intros Hm Hk w r w'. unfold bind.
  destruct (m w) as [[b|x] w1] eqn:Hmw; apply Hm in Hmw as ->.
  - apply Hk.
  - intros [= _ <-]. reflexivity.
Qed.

Lemma read_only_try_except (m : M A) (h : exn -> M A) :
  read_only m -> (forall x, read_only (h x)) -> read_only (try_except m h).
Proof.
  intros Hm Hh w r w'. unfold try_except.
  destruct (m w) as [[a|x] w1] eqn:Hmw; apply Hm in Hmw as ->.
  - intros [= _ <-]. reflexivity.
  - apply Hh.
Qed.

End ReadOnly.

Lemma read_only_store_call (e : env) (op : store_op) : read_only (store_call e op).
Proof.
  unfold store_call. destruct (fault e op); [apply read_only_raise|apply read_only_ret].
Qed.

Ltac read_only_step :=
  first
    [ apply read_only_ret | apply read_only_raise | apply read_only_lift
    | apply read_only_store_call
    | apply read_only_try_except | apply read_only_bind
    | match goal with
      | |- read_only (match ?x with _ => _ end) => destruct x
      | |- read_only (fun w => (_, w)) => intros ? ? ? [= _ <-]; reflexivity
      | |- read_only (fun w => match _ with _ => _ end) =>
          let H := fresh in
          intros ? ? ? H; repeat case_match; injection H as _ <-; reflexivity
      | |- forall _, _ => intro
      end ].

Lemma read_only_get_item (e : env) (id : json) : read_only (table_get_item e id).
Proof. unfold table_get_item. repeat read_only_step. Qed.

Lemma read_only_get_object (e : env) (key : json) : read_only (s3_get_object e key).
Proof. unfold s3_get_object. repeat read_only_step. Qed.

Lemma read_only_scan (e : env) (c : option condition) : read_only (table_scan e c).
Proof. unfold table_scan. repeat read_only_step. Qed.

(** X3.  get_image and list_images never change the stores, whatever the
    event, the failures of the store calls and the answer. *)
Theorem reads_leave_stores (e : env) (ev : event) :
  read_only (get_image e ev) /\ read_only (list_images e ev).
Proof.
  split.
  - unfold get_image, client_error_handler.
    repeat first [apply read_only_get_item | apply read_only_get_object
                 | read_only_step].
  - unfold list_images.
    repeat first [apply read_only_scan | read_only_step].
Qed.

(** ** A delete is not repeated *)

Lemma table_key_string (op : string) (id : json) (k : string) :
  table_key op (Some id) = Ok k -> id = JStr k.
Proof. destruct id; cbn; try discriminate. now intros [= ->]. Qed.

Ltac split_inner H :=
  match type of H with
  | context [match ?x with _ => _ end] =>
      lazymatch x with
      | context [match _ with _ => _ end] => fail
      | _ => destruct x eqn:?; cbn in H
      end
  end.

(** What a delete that answers 200 found and what it leaves. *)
Lemma delete_image_200_inv
  (json_loads : string -> option json) (e : env) (ev : event) (w w' : stores)
  (r : envelope) :
  delete_image json_loads e ev w = (Ok r, w') -> statusCode r = 200 ->
  exists s d k fn,
    str_is (httpMethod ev) "DELETE" = true
    /\ body ev = Some s /\ str_is_empty s = false
    /\ json_loads s = Some (JObj d)
    /\ default JNull (assoc_get "id" d) = JStr k
    /\ str_is_empty k = false
    /\ w' = {| bucket := delete fn (bucket w); table := delete k (table w) |}.
Proof.
  intros H Hs. unfold delete_image in H. unfold_monad_in H.
  destruct (str_is (httpMethod ev) "DELETE") eqn:Hm; cbn in H; [|not_200 H Hs].
  destruct (body ev) as [s|]; cbn in H; [|not_200 H Hs].
  destruct (str_is_empty s) eqn:Hse; [not_200 H Hs|].
  destruct (json_loads s) as [v|] eqn:Hv; [|not_200 H Hs].
  destruct v as [| | | | | |d|]; cbn in H; try not_200 H Hs.
  unfold table_get_item, table_delete_item, s3_delete_object in H.
  unfold_monad_in H.
  destruct (default JNull (assoc_get "id" d)) as [| | | |k| | |] eqn:Hid;
    cbn in H; try (repeat first [not_200 H Hs | split_inner H]).
  injection H as <- <-.
  match goal with
  | Hk : negb (negb (str_is_empty k)) = false |- _ =>
      rewrite negb_involutive in Hk
  end.
  match goal with
  | _ : s3_key _ = Ok ?fn |- _ => exists s, d, k, fn
  end.
  repeat split; assumption || reflexivity.
Qed.

(** X2.  Deleting the same id again, after a delete that answered 200,
    answers 404 as long as the lookup itself does not fail: the record is
    gone, and nothing else is touched. *)
Theorem delete_twice_is_404
  (json_loads : string -> option json) (e e2 : env) (ev : event) (w w' : stores)
  (r : envelope) :
  delete_image json_loads e ev w = (Ok r, w') -> statusCode r = 200 ->
  fault e2 GetItem = None ->
  delete_image json_loads e2 ev w'
  = (Ok (reply 404 (error_body "Image not found")), w').
Proof.
  intros H Hs Hg.
  destruct (delete_image_200_inv _ _ _ _ _ _ H Hs)
    as (s & d & k & fn & Hm & Hb & Hse & Hd & Hid & Hk & ->).
  unfold delete_image, table_get_item. unfold_monad.
  rewrite Hm, Hb. cbn. rewrite Hse, Hd. cbn. rewrite Hid. cbn.
  rewrite Hk, Hg. cbn. rewrite lookup_delete_eq. reflexivity.
Qed.

Lemma delete_twice_is_404_witness :
  delete_image json_loads_plain calm delete_hi empty_stores
  = (Ok (reply 404 (error_body "Image not found")), empty_stores).
Proof.
  apply (delete_twice_is_404 json_loads_plain calm calm delete_hi one_image
           empty_stores
           (reply 200 (JObj [("message", JStr "Deleted successfully");
                             ("id", JStr image_id)])));
    vm_compute; reflexivity.
Defined.


(** ** The status codes of each operation *)

Lemma answers_response (codes : list Z) (c : Z) (b : json) :
  In c codes -> answers codes (lift (response c b)).
Proof.
  intros Hc w r w'. unfold lift, response.
  destruct (json_dumps b); [|discriminate]. now intros [= <- _].
Qed.

Lemma answers_raise (codes : list Z) (x : exn) : answers codes (raise x).
Proof. intros w r w'. discriminate. Qed.

Lemma answers_bind {B : Type} (codes : list Z) (m : M B) (k : B -> M envelope) :
  (forall b, answers codes (k b)) -> answers codes (bind m k).
Proof.
  intros Hk w r w'. unfold bind.
  destruct (m w) as [[b|x] w1]; [apply Hk|discriminate].
Qed.

Lemma answers_try_except (codes : list Z) (m : M envelope) (h : exn -> M envelope) :
  answers codes m -> (forall x, answers codes (h x)) ->
  answers codes (try_except m h).
Proof.
  intros Hm Hh w r w'. unfold try_except.
  destruct (m w) as [[a|x] w1] eqn:Hmw; [|apply Hh].
  intros [= <- <-]. exact (Hm _ _ _ Hmw).
Qed.

Ltac answers_step :=
  first
    [ apply answers_response; cbn; tauto
    | apply answers_raise
    | apply answers_try_except | apply answers_bind
    | match goal with
      | |- answers _ (match ?x with _ => _ end) => destruct x
      | |- forall _, _ => intro
      end ].

(** X4.  The status codes an operation can answer with: upload 200, 400,
    405 or 500; list 200 or 500; get 200, 400, 404 or 500; delete 200, 400,
    404, 405 or 500. *)
Theorem status_codes_of_the_handlers
  (json_loads : string -> option json) (e : env) (ev : event) :
  answers [200; 400; 405; 500] (upload_image json_loads e ev)
  /\ answers [200; 500] (list_images e ev)
  /\ answers [200; 400; 404; 500] (get_image e ev)
  /\ answers [200; 400; 404; 405; 500] (delete_image json_loads e ev).
Proof.
  repeat split.
  - unfold upload_image. repeat answers_step.
  - unfold list_images. repeat answers_step.
  - unfold get_image, client_error_handler. repeat answers_step.
  - unfold delete_image, client_error_handler. repeat answers_step.
Qed.

(** ** What an upload writes *)

(** X5.  An upload that answers 200 has written the decoded content under
    the file name of the request and, under the id it returns, the record
    of that id, file name, metadata (an empty dict when the request has
    none) and local date; every other blob and record is as before. *)
Theorem upload_image_effect
  (json_loads : string -> option json) (e : env) (ev : event) (w w' : stores)
  (r : envelope) :
  upload_image json_loads e ev w = (Ok r, w') -> statusCode r = 200 ->
  exists (d : item) (id F : string) (data : list byte),
    json_loads (default EmptyString (body ev)) = Some (JObj d)
    /\ assoc_get "file_name" d = Some (JStr F)
    /\ b64decode (default JNull (assoc_get "file_content" d)) = Ok data
    /\ response_json r
       = JObj [("message", JStr "Image uploaded"); ("file_name", JStr F);
               ("id", JStr id)]
    /\ bucket w' !! F = Some data
    /\ table w' !! id
       = Some [("id", JStr id); ("file_name", JStr F);
               ("metadata", default (JObj []) (assoc_get "metadata" d));
               ("created_at", JStr (date_isoformat (local_date e)))]
    /\ (forall k, k <> F -> bucket w' !! k = bucket w !! k)
    /\ (forall k, k <> id -> table w' !! k = table w !! k).
Proof.
  intros H Hs.
  destruct (upload_image_200_inv _ _ _ _ _ _ H Hs)
    as (s & d & F & data & Hb & Hd & HF & HFne & Hdata & Hr & Hw).
  exists d, (uuid_str (uuid4 (entropy e))), F, data.
  rewrite Hb. subst r w'. cbn.
  split; [exact Hd|]. split.
  { destruct (assoc_get "file_name" d); [now cbn in HF; subst|discriminate HF]. }
  split; [exact Hdata|]. split; [reflexivity|].
  split; [apply lookup_insert_eq|]. split; [apply lookup_insert_eq|].
  split; intros k Hk; now apply lookup_insert_ne.
Qed.

Lemma upload_image_effect_witness :
  exists (d : item) (id F : string) (data : list byte),
    json_loads_plain (default EmptyString (body upload_hi)) = Some (JObj d)
    /\ assoc_get "file_name" d = Some (JStr F)
    /\ b64decode (default JNull (assoc_get "file_content" d)) = Ok data
    /\ response_json
         (reply 200 (JObj [("message", JStr "Image uploaded");
                           ("file_name", JStr "a.png"); ("id", JStr image_id)]))
       = JObj [("message", JStr "Image uploaded"); ("file_name", JStr F);
               ("id", JStr id)]
    /\ bucket one_image !! F = Some data
    /\ table one_image !! id
       = Some [("id", JStr id); ("file_name", JStr F);
               ("metadata", default (JObj []) (assoc_get "metadata" d));
               ("created_at", JStr (date_isoformat (local_date calm)))]
    /\ (forall k, k <> F -> bucket one_image !! k = bucket empty_stores !! k)
    /\ (forall k, k <> id -> table one_image !! k = table empty_stores !! k).
Proof.
  apply (upload_image_effect json_loads_plain calm upload_hi empty_stores one_image
           (reply 200 (JObj [("message", JStr "Image uploaded");
                             ("file_name", JStr "a.png"); ("id", JStr image_id)]))).
  - vm_compute. reflexivity.
  - reflexivity.
Defined.

Lemma response_status (c : Z) (b : json) (r : envelope) :
  response c b = Ok r -> statusCode r = c.
Proof.
  unfold response. destruct (json_dumps b); [|discriminate]. now intros [= <-].
Qed.

Ltac status_facts :=
  repeat match goal with
         | Hr : response _ _ = Ok _ |- _ => apply response_status in Hr
         end.

Ltac settle H Hs :=
  first
    [ injection H as <- <-; status_facts;
      first [ reflexivity | exfalso; cbn in Hs; lia ]
    | split_inner H ].

(** X6.  A request that upload_image or delete_image answers with 400 or
    405 has changed nothing in the stores. *)
Theorem rejected_requests_change_nothing
  (json_loads : string -> option json) (e : env) (ev : event) (w w' : stores)
  (r : envelope) :
  (upload_image json_loads e ev w = (Ok r, w') ->
   statusCode r = 400 \/ statusCode r = 405 -> w' = w)
  /\ (delete_image json_loads e ev w = (Ok r, w') ->
      statusCode r = 400 \/ statusCode r = 405 -> w' = w).
Proof.
  split; intros H Hs.
  - unfold upload_image, s3_put_object, table_put_item in H. unfold_monad_in H.
    cbn in H. repeat settle H Hs.
  - unfold delete_image, table_get_item, table_delete_item, s3_delete_object in H.
    unfold_monad_in H. cbn in H. repeat settle H Hs.
Qed.

(** X7.  An upload that does not answer 200 has written no record: the
    table is as before, and the bucket is as before or holds one blob
    more, under the file name of the request. *)
Theorem failed_upload_writes_no_record
  (json_loads : string -> option json) (e : env) (ev : event) (w w' : stores)
  (r : envelope) :
  upload_image json_loads e ev w = (Ok r, w') -> statusCode r <> 200 ->
  table w' = table w
  /\ (bucket w' = bucket w
      \/ exists F data, bucket w' = <[F := data]> (bucket w)).
Proof.
  intros H Hs.
  unfold upload_image, s3_put_object, table_put_item in H. unfold_monad_in H.
  cbn in H.
  repeat first
    [ match goal with
      | Hk : s3_key _ = Ok _, Hr : response _ _ = Raise _ |- _ =>
          apply s3_key_string in Hk as [-> _]; discriminate Hr
      end
    | injection H as <- <-; status_facts;
      first [ now (split; [reflexivity|left])
            | now (split; [reflexivity|right; eexists _, _])
            | exfalso; cbn in Hs; lia ]
    | split_inner H ].
Qed.

Lemma failed_upload_writes_no_record_witness :
  table {| bucket := bucket one_image; table := ∅ |} = table empty_stores
  /\ (bucket {| bucket := bucket one_image; table := ∅ |} = bucket empty_stores
      \/ exists F data,
           bucket {| bucket := bucket one_image; table := ∅ |}
           = <[F := data]> (bucket empty_stores)).
Proof.
  apply (failed_upload_writes_no_record json_loads_plain
           (outage PutItem dynamodb_failed) upload_hi empty_stores
           {| bucket := bucket one_image; table := ∅ |}
           (reply 500 (error_body "DynamoDB failed"))).
  - vm_compute. reflexivity.
  - cbn. lia.
Defined.

(** ** A write that fails half way *)

(** The steps of an upload that answers 200. *)
Lemma upload_image_200_steps
  (json_loads : string -> option json) (e : env) (ev : event) (w w' : stores)
  (r : envelope) :
  upload_image json_loads e ev w = (Ok r, w') -> statusCode r = 200 ->
  exists s d F data,
    str_is (httpMethod ev) "POST" = true
    /\ body ev = Some s /\ str_is_empty s = false
    /\ json_loads s = Some (JObj d)
    /\ default JNull (assoc_get "file_name" d) = JStr F
    /\ str_is_empty F = false
    /\ truthy (default JNull (assoc_get "file_content" d)) = true
    /\ b64decode (default JNull (assoc_get "file_content" d)) = Ok data
    /\ fault e PutObject = None
    /\ datetime_now_date e = Ok (local_date e)
    /\ contains_float (default (JObj []) (assoc_get "metadata" d)) = false
    /\ fault e PutItem = None.
Proof.
  intros H Hs. unfold upload_image in H. unfold_monad_in H.
  destruct (str_is (httpMethod ev) "POST") eqn:Hm; cbn in H; [|not_200 H Hs].
  destruct (body ev) as [s|]; cbn in H; [|not_200 H Hs].
  destruct (str_is_empty s) eqn:Hse; [not_200 H Hs|].
  destruct (json_loads s) as [v|] eqn:Hv; [|not_200 H Hs].
  destruct v as [| | | | | |d|]; cbn in H; try not_200 H Hs.
  destruct (truthy (default JNull (assoc_get "file_name" d))); cbn in H;
    [|not_200 H Hs].
  destruct (truthy (default JNull (assoc_get "file_content" d))) eqn:Htc;
    cbn in H; [|not_200 H Hs].
  destruct (b64decode (default JNull (assoc_get "file_content" d)))
    as [data|x] eqn:Hdata; [|not_200 H Hs].
  unfold s3_put_object, table_put_item in H. unfold_monad_in H.
  destruct (s3_key (default JNull (assoc_get "file_name" d))) as [F|x] eqn:HF;
    [|not_200 H Hs].
  apply s3_key_string in HF as [HF HF']. rewrite HF in H.
  destruct (fault e PutObject) eqn:Hpo; [not_200 H Hs|].
  destruct (datetime_now_date e) as [today|x] eqn:Hnow; [|not_200 H Hs].
  pose proof (datetime_now_date_local _ _ Hnow) as ->.
  cbn in H.
  destruct (contains_float (default (JObj []) (assoc_get "metadata" d))) eqn:Hfl;
    cbn in H; [not_200 H Hs|].
  destruct (fault e PutItem) eqn:Hpi; [not_200 H Hs|].
  exists s, d, F, data. repeat split; assumption || reflexivity.
Qed.

Lemma datetime_now_date_same_clock (e e' : env) :
  clock e' = clock e -> utc_offset e' = utc_offset e ->
  datetime_now_date e' = datetime_now_date e.
Proof. unfold datetime_now_date. now intros -> ->. Qed.

(** X8.  The two writes of an upload are not undone: when the table refuses
    the record of a request that would otherwise have been answered 200,
    the answer is 500 with the text of the exception, and the blob the
    request carries is in the bucket all the same, with no record. *)
Theorem upload_record_refused_leaves_blob
  (json_loads : string -> option json) (e e' : env) (ev : event) (w w1 : stores)
  (r : envelope) (x : exn) :
  upload_image json_loads e ev w = (Ok r, w1) -> statusCode r = 200 ->
  clock e' = clock e -> utc_offset e' = utc_offset e ->
  fault e' PutObject = None -> fault e' PutItem = Some x ->
  upload_image json_loads e' ev w
  = (Ok (reply 500 (error_body (exn_str x))),
     {| bucket := bucket w1; table := table w |}).
Proof.
  intros H Hs Hc Ho Hpo Hpi.
  destruct (upload_image_200_inv _ _ _ _ _ _ H Hs)
    as (s0 & d0 & F0 & data0 & Hb0 & Hd0 & HF0 & _ & Hdata0 & _ & ->).
  destruct (upload_image_200_steps _ _ _ _ _ _ H Hs)
    as (s & d & F & data & Hm & Hb & Hse & Hd & HF & HFne & Htc & Hdata
        & _ & Hnow & Hfl & _).
  rewrite Hb in Hb0. injection Hb0 as <-.
  rewrite Hd in Hd0. injection Hd0 as <-.
  rewrite HF in HF0. injection HF0 as <-.
  rewrite Hdata in Hdata0. injection Hdata0 as <-.
  unfold upload_image, s3_put_object, table_put_item. unfold_monad.
  rewrite Hm, Hb. cbn. rewrite Hse, Hd. cbn. rewrite HF, Htc, Hdata.
  destruct F as [|c F]; [discriminate HFne|]. cbn.
  rewrite Hpo, (datetime_now_date_same_clock e e' Hc Ho), Hnow. cbn.
  rewrite Hfl, Hpi. reflexivity.
Qed.

Lemma upload_record_refused_leaves_blob_witness :
  upload_image json_loads_plain (outage PutItem dynamodb_failed) upload_hi
    empty_stores
  = (Ok (reply 500 (error_body (exn_str dynamodb_failed))),
     {| bucket := bucket one_image; table := table empty_stores |}).
Proof.
  apply (upload_record_refused_leaves_blob json_loads_plain calm
           (outage PutItem dynamodb_failed) upload_hi empty_stores one_image
           (reply 200 (JObj [("message", JStr "Image uploaded");
                             ("file_name", JStr "a.png"); ("id", JStr image_id)]))
           dynamodb_failed);
    vm_compute; reflexivity.
Defined.

Lemma read_back_str (v : json) (s : string) : read_back v = JStr s -> v = JStr s.
Proof. destruct v; cbn; try discriminate. now intros [= ->]. Qed.

(** The record behind a lookup that went on to use its file name. *)
Lemma lookup_file_name (w : stores) (k : string) (j : json) (fn : string) :
  assoc_get "file_name" (default [] (read_back_item <$> table w !! k)) = Some j ->
  s3_key j = Ok fn ->
  exists it,
    table w !! k = Some it
    /\ assoc_get "file_name" it = Some (JStr fn)
    /\ str_is_empty fn = false
    /\ j = JStr fn.
Proof.
  intros Hj Hfn. apply s3_key_string in Hfn as [-> Hne].
  destruct (table w !! k) as [it|] eqn:Hit; [|discriminate Hj].
  cbn in Hj. rewrite assoc_get_read_back in Hj.
  destruct (assoc_get "file_name" it) as [v|] eqn:Hf; [|discriminate Hj].
  cbn in Hj. injection Hj as Hj. apply read_back_str in Hj as ->.
  exists it. repeat split; assumption || reflexivity.
Qed.

(** The steps of a delete that answers 200. *)
Lemma delete_image_200_steps
  (json_loads : string -> option json) (e : env) (ev : event) (w w' : stores)
  (r : envelope) :
  delete_image json_loads e ev w = (Ok r, w') -> statusCode r = 200 ->
  exists s d k it fn,
    str_is (httpMethod ev) "DELETE" = true
    /\ body ev = Some s /\ str_is_empty s = false
    /\ json_loads s = Some (JObj d)
    /\ default JNull (assoc_get "id" d) = JStr k
    /\ str_is_empty k = false
    /\ fault e GetItem = None
    /\ table w !! k = Some it
    /\ assoc_get "file_name" it = Some (JStr fn)
    /\ str_is_empty fn = false
    /\ fault e DeleteObject = None
    /\ fault e DeleteItem = None
    /\ r = reply 200 (JObj [("message", JStr "Deleted successfully");
                            ("id", JStr k)])
    /\ w' = {| bucket := delete fn (bucket w); table := delete k (table w) |}.
Proof.
  intros H Hs. unfold delete_image in H. unfold_monad_in H.
  destruct (str_is (httpMethod ev) "DELETE") eqn:Hm; cbn in H; [|not_200 H Hs].
  destruct (body ev) as [s|]; cbn in H; [|not_200 H Hs].
  destruct (str_is_empty s) eqn:Hse; [not_200 H Hs|].
  destruct (json_loads s) as [v|] eqn:Hv; [|not_200 H Hs].
  destruct v as [| | | | | |d|]; cbn in H; try not_200 H Hs.
  unfold table_get_item, table_delete_item, s3_delete_object in H.
  unfold_monad_in H.
  destruct (default JNull (assoc_get "id" d)) as [| | | |k| | |] eqn:Hid;
    cbn in H; try (repeat first [not_200 H Hs | split_inner H]).
  injection H as <- <-.
  match goal with
  | Hk : negb (negb (str_is_empty k)) = false |- _ =>
      rewrite negb_involutive in Hk
  end.
  match goal with
  | Hj : assoc_get "file_name" _ = Some ?j, Hfn : s3_key ?j = Ok ?fn |- _ =>
      destruct (lookup_file_name _ _ _ _ Hj Hfn) as (it & Hit & Hf & Hne & ->);
      exists s, d, k, it, fn
  end.
  repeat split; assumption || reflexivity.
Qed.

(** The delete of a record the table holds. *)
Lemma delete_image_found
  (json_loads : string -> option json) (e : env) (ev : event) (w : stores)
  (s k fn : string) (d it : item) :
  str_is (httpMethod ev) "DELETE" = true ->
  body ev = Some s -> str_is_empty s = false ->
  json_loads s = Some (JObj d) ->
  assoc_get "id" d = Some (JStr k) -> str_is_empty k = false ->
  fault e GetItem = None -> fault e DeleteObject = None ->
  fault e DeleteItem = None ->
  table w !! k = Some it ->
  assoc_get "file_name" it = Some (JStr fn) -> str_is_empty fn = false ->
  delete_image json_loads e ev w
  = (Ok (reply 200 (JObj [("message", JStr "Deleted successfully");
                          ("id", JStr k)])),
     {| bucket := delete fn (bucket w); table := delete k (table w) |}).
Proof.
  intros Hm Hb Hse Hd Hid Hk Hg Ho Hi Hit Hf Hne.
  unfold delete_image, table_get_item, table_delete_item, s3_delete_object.
  unfold_monad.
  rewrite Hm, Hb. cbn. rewrite Hse, Hd. cbn. rewrite Hid. cbn.
  rewrite Hk, Hg. cbn. rewrite Hit.
  cbn -[assoc_get read_back_item item_falsy].
  rewrite (item_truthy_read_back _ _ _ Hf), assoc_get_read_back, Hf.
  destruct fn as [|c fn]; [discriminate Hne|]. cbn. rewrite Ho, Hi.
  reflexivity.
Qed.

(** The get of a record whose blob is not in the bucket. *)
Lemma get_image_blob_missing
  (e : env) (ev : event) (w : stores) (params : gmap string string)
  (k fn : string) (it : item) :
  queryStringParameters ev = QMap params -> params !! "id" = Some k ->
  str_is_empty k = false ->
  fault e GetItem = None -> fault e GetObject = None ->
  table w !! k = Some it ->
  assoc_get "file_name" it = Some (JStr fn) -> str_is_empty fn = false ->
  bucket w !! fn = None ->
  get_image e ev w = (Ok (reply 404 (error_body (exn_str no_such_key))), w).
Proof.
  intros Hq Hp Hk Hg Ho Hit Hf Hne Hblob.
  unfold get_image, table_get_item, s3_get_object. unfold_monad.
  rewrite Hq, Hp. cbn. rewrite Hk, Hg. cbn. rewrite Hit.
  cbn -[assoc_get read_back_item item_falsy].
  rewrite (item_truthy_read_back _ _ _ Hf), assoc_get_read_back, Hf.
  destruct fn as [|a fn]; [discriminate Hne|]. cbn.
  rewrite Ho, Hblob. reflexivity.
Qed.

(** X9.  A delete that answers 200 has removed the record of the id and
    the blob under that record's file name, and nothing else; its answer
    carries the id. *)
Theorem delete_image_effect
  (json_loads : string -> option json) (e : env) (ev : event) (w w' : stores)
  (r : envelope) :
  delete_image json_loads e ev w = (Ok r, w') -> statusCode r = 200 ->
  exists (d : item) (k fn : string) (it : item),
    json_loads (default EmptyString (body ev)) = Some (JObj d)
    /\ assoc_get "id" d = Some (JStr k)
    /\ table w !! k = Some it
    /\ assoc_get "file_name" it = Some (JStr fn)
    /\ response_json r
       = JObj [("message", JStr "Deleted successfully"); ("id", JStr k)]
    /\ table w' !! k = None
    /\ bucket w' !! fn = None
    /\ (forall k', k' <> k -> table w' !! k' = table w !! k')
    /\ (forall k', k' <> fn -> bucket w' !! k' = bucket w !! k').
Proof.
  intros H Hs.
  destruct (delete_image_200_steps _ _ _ _ _ _ H Hs)
    as (s & d & k & it & fn & _ & Hb & _ & Hd & Hid & _ & _ & Hit & Hf & _ & _
        & _ & -> & ->).
  exists d, k, fn, it. rewrite Hb. cbn.
  split; [exact Hd|]. split.
  { destruct (assoc_get "id" d); [now cbn in Hid; subst|discriminate Hid]. }
  split; [exact Hit|]. split; [exact Hf|]. split; [reflexivity|].
  split; [apply lookup_delete_eq|]. split; [apply lookup_delete_eq|].
  split; intros k' Hk'; now apply lookup_delete_ne.
Qed.

Lemma delete_image_effect_witness :
  exists (d : item) (k fn : string) (it : item),
    json_loads_plain (default EmptyString (body delete_hi)) = Some (JObj d)
    /\ assoc_get "id" d = Some (JStr k)
    /\ table one_image !! k = Some it
    /\ assoc_get "file_name" it = Some (JStr fn)
    /\ response_json
         (reply 200 (JObj [("message", JStr "Deleted successfully");
                           ("id", JStr image_id)]))
       = JObj [("message", JStr "Deleted successfully"); ("id", JStr k)]
    /\ table empty_stores !! k = None
    /\ bucket empty_stores !! fn = None
    /\ (forall k', k' <> k -> table empty_stores !! k' = table one_image !! k')
    /\ (forall k', k' <> fn -> bucket empty_stores !! k' = bucket one_image !! k').
Proof.
  apply (delete_image_effect json_loads_plain calm delete_hi one_image empty_stores
           (reply 200 (JObj [("message", JStr "Deleted successfully");
                             ("id", JStr image_id)]))).
  - vm_compute. reflexivity.
  - reflexivity.
Defined.

(** X10.  The two deletes of delete_image are not undone, and the request
    can be repeated: when the table refuses the delete of the record of a
    request that would otherwise have been answered 200, the answer is 404
    or 500 by the class of the exception, the blob is gone and the record
    stays.  A later get_image for that id answers 404, the bucket having no
    such key; the same delete request, once the stores answer, is answered
    200 and leaves what the undisturbed delete would have left. *)
Theorem delete_record_refused_leaves_record
  (json_loads : string -> option json) (e e' : env) (ev : event) (w w1 : stores)
  (r : envelope) (x : exn) :
  delete_image json_loads e ev w = (Ok r, w1) -> statusCode r = 200 ->
  fault e' GetItem = None -> fault e' DeleteObject = None ->
  fault e' DeleteItem = Some x ->
  let w2 := {| bucket := bucket w1; table := table w |} in
  delete_image json_loads e' ev w
  = (Ok (reply (status_of_exn x) (error_body (exn_str x))), w2)
  /\ (exists k,
        response_json r
        = JObj [("message", JStr "Deleted successfully"); ("id", JStr k)]
        /\ forall (e2 : env) (ev2 : event) (params : gmap string string),
             queryStringParameters ev2 = QMap params -> params !! "id" = Some k ->
             fault e2 GetItem = None -> fault e2 GetObject = None ->
             get_image e2 ev2 w2
             = (Ok (reply 404 (error_body (exn_str no_such_key))), w2))
  /\ (forall e3 : env,
        fault e3 GetItem = None -> fault e3 DeleteObject = None ->
        fault e3 DeleteItem = None ->
        delete_image json_loads e3 ev w2 = (Ok r, w1)).
Proof.
  intros H Hs Hg Ho Hi. cbv zeta.
  destruct (delete_image_200_steps _ _ _ _ _ _ H Hs)
    as (s & d & k & it & fn & Hm & Hb & Hse & Hd & Hid & Hk & _ & Hit & Hf & Hne
        & _ & _ & -> & ->).
  assert (Hid' : assoc_get "id" d = Some (JStr k)).
  { destruct (assoc_get "id" d); [now cbn in Hid; subst|discriminate Hid]. }
  cbn [bucket table]. split; [|split].
  - unfold delete_image, table_get_item, table_delete_item, s3_delete_object.
    unfold_monad.
    rewrite Hm, Hb. cbn. rewrite Hse, Hd. cbn. rewrite Hid. cbn.
    rewrite Hk, Hg. cbn. rewrite Hit.
    cbn -[assoc_get read_back_item item_falsy].
    rewrite (item_truthy_read_back _ _ _ Hf), assoc_get_read_back, Hf.
    destruct fn as [|c fn]; [discriminate Hne|]. cbn. rewrite Ho, Hi.
    unfold status_of_exn. now destruct (is_ClientError x).
  - exists k. split; [reflexivity|].
    intros e2 ev2 params Hq Hp Hg2 Ho2.
    now apply (get_image_blob_missing e2 ev2 _ params k fn it);
      try apply lookup_delete_eq.
  - intros e3 Hg3 Ho3 Hi3.
    rewrite (delete_image_found json_loads e3 ev
               {| bucket := delete fn (bucket w); table := table w |}
               s k fn d it Hm Hb Hse Hd Hid' Hk Hg3 Ho3 Hi3 Hit Hf Hne).
    cbn [bucket table]. now rewrite delete_delete_eq.
Qed.

Lemma delete_record_refused_leaves_record_witness :
  delete_image json_loads_plain (outage DeleteItem connection_error) delete_hi
    one_image
  = (Ok (reply 500 (error_body (exn_str connection_error))),
     {| bucket := bucket empty_stores; table := table one_image |}).
Proof.
  apply (delete_record_refused_leaves_record json_loads_plain calm
           (outage DeleteItem connection_error) delete_hi one_image empty_stores
           (reply 200 (JObj [("message", JStr "Deleted successfully");
                             ("id", JStr image_id)]))
           connection_error);
    vm_compute; reflexivity.
Defined.

(** ** What a get returns, and records that share a file name *)

Lemma response_ok (c : Z) (b : json) (r : envelope) :
  response c b = Ok r -> r = reply c b.
Proof.
  unfold response, json_dumps, reply.
  destruct (json_serializable b); [|discriminate]. now intros [= <-].
Qed.

(** The steps of a get that answers 200. *)
Lemma get_image_200_steps (e : env) (ev : event) (w w' : stores) (r : envelope) :
  get_image e ev w = (Ok r, w') -> statusCode r = 200 ->
  exists params k it fn blob,
    queryStringParameters ev = QMap params
    /\ params !! "id" = Some k
    /\ str_is_empty k = false
    /\ fault e GetItem = None
    /\ table w !! k = Some it
    /\ assoc_get "file_name" it = Some (JStr fn)
    /\ str_is_empty fn = false
    /\ fault e GetObject = None
    /\ bucket w !! fn = Some blob
    /\ r = reply 200
             (JObj [("id", JStr k); ("file_name", JStr fn);
                    ("file_content", JStr (b64encode blob));
                    ("created_at",
                     default (JStr "") (read_back <$> assoc_get "created_at" it))])
    /\ w' = w.
Proof.
  intros H Hs.
  unfold get_image, table_get_item, s3_get_object in H. unfold_monad_in H.
  destruct (queryStringParameters ev) as [| |params] eqn:Hq; cbn in H;
    try not_200 H Hs.
  destruct (params !! "id") as [k|] eqn:Hp; cbn in H; [|not_200 H Hs].
  destruct (str_is_empty k) eqn:Hk; cbn in H; [not_200 H Hs|].
  destruct (fault e GetItem) eqn:Hg; cbn in H;
    [destruct (is_ClientError e0); not_200 H Hs|].
  destruct (item_falsy (read_back_item <$> table w !! k)) eqn:Hif; cbn in H;
    [not_200 H Hs|].
  destruct (assoc_get "file_name" (default [] (read_back_item <$> table w !! k)))
    as [j|] eqn:Hj; cbn in H; [|not_200 H Hs].
  destruct (s3_key j) as [fn|x] eqn:Hfn; cbn in H;
    [|destruct (is_ClientError x); not_200 H Hs].
  destruct (lookup_file_name _ _ _ _ Hj Hfn) as (it & Hit & Hf & Hne & ->).
  rewrite Hit in H. cbn -[assoc_get read_back_item b64encode response] in H.
  rewrite assoc_get_read_back in H.
  destruct (fault e GetObject) eqn:Ho; cbn -[b64encode response] in H;
    [destruct (is_ClientError e0); not_200 H Hs|].
  destruct (bucket w !! fn) as [blob|] eqn:Hblob;
    cbn -[b64encode response] in H; [|not_200 H Hs].
  match type of H with
  | context [response ?c ?b] => destruct (response c b) as [a|x] eqn:Hr
  end; cbn in H; [|destruct (is_ClientError x); not_200 H Hs].
  injection H as <- <-. apply response_ok in Hr as ->.
  exists params, k, it, fn, blob. repeat split; assumption || reflexivity.
Qed.

(** The get of a record whose blob is in the bucket. *)
Lemma get_image_found
  (e : env) (ev : event) (w : stores) (params : gmap string string)
  (k fn c : string) (it : item) (blob : list byte) :
  queryStringParameters ev = QMap params -> params !! "id" = Some k ->
  str_is_empty k = false ->
  fault e GetItem = None -> fault e GetObject = None ->
  table w !! k = Some it ->
  assoc_get "file_name" it = Some (JStr fn) -> str_is_empty fn = false ->
  assoc_get "created_at" it = Some (JStr c) ->
  bucket w !! fn = Some blob ->
  get_image e ev w
  = (Ok (reply 200 (JObj [("id", JStr k); ("file_name", JStr fn);
                          ("file_content", JStr (b64encode blob));
                          ("created_at", JStr c)])), w).
Proof.
  intros Hq Hp Hk Hg Ho Hit Hf Hne Hc Hblob.
  unfold get_image, table_get_item, s3_get_object. unfold_monad.
  rewrite Hq, Hp. cbn. rewrite Hk, Hg. cbn. rewrite Hit.
  cbn -[assoc_get read_back_item item_falsy b64encode].
  rewrite (item_truthy_read_back _ _ _ Hf), !assoc_get_read_back, Hf, Hc.
  destruct fn as [|a fn]; [discriminate Hne|]. cbn -[b64encode].
  rewrite Ho, Hblob. reflexivity.
Qed.

(** X11.  A get that answers 200 found a record under the id of the query
    and returns that record's file name and the base64 text of the blob the
    bucket holds under that file name, which decodes to the blob; the blob
    is looked up by file name, not by id. *)
Theorem get_image_returns_stored_blob
  (e : env) (ev : event) (w w' : stores) (r : envelope) :
  get_image e ev w = (Ok r, w') -> statusCode r = 200 ->
  exists (params : gmap string string) (k fn : string) (it : item)
         (blob : list byte),
    queryStringParameters ev = QMap params
    /\ params !! "id" = Some k
    /\ table w !! k = Some it
    /\ assoc_get "file_name" it = Some (JStr fn)
    /\ bucket w !! fn = Some blob
    /\ response_json r
       = JObj [("id", JStr k); ("file_name", JStr fn);
               ("file_content", JStr (b64encode blob));
               ("created_at",
                default (JStr "") (read_back <$> assoc_get "created_at" it))]
    /\ b64decode (JStr (b64encode blob)) = Ok blob.
Proof.
  intros H Hs.
  destruct (get_image_200_steps _ _ _ _ _ H Hs)
    as (params & k & it & fn & blob & Hq & Hp & _ & _ & Hit & Hf & _ & _ & Hb
        & -> & _).
  exists params, k, fn, it, blob.
  repeat split; try assumption. apply b64decode_b64encode.
Qed.

Lemma get_image_returns_stored_blob_witness :
  exists (params : gmap string string) (k fn : string) (it : item)
         (blob : list byte),
    queryStringParameters (query [("id", image_id)]) = QMap params
    /\ params !! "id" = Some k
    /\ table one_image !! k = Some it
    /\ assoc_get "file_name" it = Some (JStr fn)
    /\ bucket one_image !! fn = Some blob
    /\ response_json
         (reply 200 (JObj [("id", JStr image_id); ("file_name", JStr "a.png");
                           ("file_content", JStr "aGk=");
                           ("created_at", JStr "2025-10-05")]))
       = JObj [("id", JStr k); ("file_name", JStr fn);
               ("file_content", JStr (b64encode blob));
               ("created_at",
                default (JStr "") (read_back <$> assoc_get "created_at" it))]
    /\ b64decode (JStr (b64encode blob)) = Ok blob.
Proof.
  apply (get_image_returns_stored_blob calm (query [("id", image_id)]) one_image
           one_image).
  - vm_compute. reflexivity.
  - reflexivity.
Defined.

(** X12.  Blobs are stored under the file name, records under the id: a
    second upload with the file name of an earlier one replaces the blob,
    and a get of the earlier id then returns the content of the second
    upload. *)
Theorem same_file_name_replaces_content
  (json_loads : string -> option json) (e1 e2 e3 : env) (ev1 ev2 ev3 : event)
  (w w1 w2 : stores) (r1 r2 : envelope) (F id1 id2 : string)
  (params : gmap string string) :
  upload_image json_loads e1 ev1 w = (Ok r1, w1) -> statusCode r1 = 200 ->
  upload_image json_loads e2 ev2 w1 = (Ok r2, w2) -> statusCode r2 = 200 ->
  response_json r1 = JObj [("message", JStr "Image uploaded");
                           ("file_name", JStr F); ("id", JStr id1)] ->
  response_json r2 = JObj [("message", JStr "Image uploaded");
                           ("file_name", JStr F); ("id", JStr id2)] ->
  queryStringParameters ev3 = QMap params -> params !! "id" = Some id1 ->
  fault e3 GetItem = None -> fault e3 GetObject = None ->
  exists (d2 : item) (data2 : list byte) (c : string),
    json_loads (default EmptyString (body ev2)) = Some (JObj d2)
    /\ b64decode (default JNull (assoc_get "file_content" d2)) = Ok data2
    /\ get_image e3 ev3 w2
       = (Ok (reply 200 (JObj [("id", JStr id1); ("file_name", JStr F);
                               ("file_content", JStr (b64encode data2));
                               ("created_at", JStr c)])), w2).
Proof.
  intros H1 Hs1 H2 Hs2 Hr1 Hr2 Hq Hp Hg Ho.
  destruct (upload_image_200_inv _ _ _ _ _ _ H1 Hs1)
    as (s1 & d1 & F1 & data1 & _ & _ & _ & Hne1 & _ & Hrw1).
  destruct (upload_image_200_inv _ _ _ _ _ _ H2 Hs2)
    as (s2 & d2 & F2 & data2 & Hb2 & Hd2 & _ & _ & Hdata2 & Hrw2).
  cbv zeta in Hrw1, Hrw2. destruct Hrw1 as [-> ->]. destruct Hrw2 as [-> ->].
  cbn in Hr1, Hr2. injection Hr1 as -> Hid1. injection Hr2 as -> Hid2.
  exists d2, data2.
  assert (Hk : str_is_empty id1 = false).
  { rewrite <- Hid1. apply uuid_str_truthy. }
  destruct (decide (id1 = id2)) as [Heq|Hneq].
  - exists (date_isoformat (local_date e2)).
    rewrite Hb2. cbn. split; [exact Hd2|]. split; [exact Hdata2|].
    eapply get_image_found; try eassumption.
    + cbn [table]. rewrite Heq, <- Hid2. apply lookup_insert_eq.
    + reflexivity.
    + reflexivity.
    + cbn [bucket]. apply lookup_insert_eq.
  - exists (date_isoformat (local_date e1)).
    rewrite Hb2. cbn. split; [exact Hd2|]. split; [exact Hdata2|].
    eapply get_image_found; try eassumption.
    + cbn [table]. rewrite lookup_insert_ne by congruence.
      rewrite <- Hid1. apply lookup_insert_eq.
    + reflexivity.
    + reflexivity.
    + cbn [bucket]. apply lookup_insert_eq.
Qed.

Lemma same_file_name_replaces_content_witness :
  exists (d2 : item) (data2 : list byte) (c : string),
    json_loads_plain (default EmptyString (body upload_ho)) = Some (JObj d2)
    /\ b64decode (default JNull (assoc_get "file_content" d2)) = Ok data2
    /\ get_image calm (query [("id", image_id)])
         {| bucket := {[ "a.png" := bytes_of_text "ho" ]}; table := table two_images |}
       = (Ok (reply 200 (JObj [("id", JStr image_id); ("file_name", JStr "a.png");
                               ("file_content", JStr (b64encode data2));
                               ("created_at", JStr c)])),
          {| bucket := {[ "a.png" := bytes_of_text "ho" ]};
             table := table two_images |}).
Proof.
  apply (same_file_name_replaces_content json_loads_plain calm next_day calm
           upload_hi upload_ho (query [("id", image_id)])
           empty_stores one_image
           {| bucket := {[ "a.png" := bytes_of_text "ho" ]};
              table := table two_images |}
           (reply 200 (JObj [("message", JStr "Image uploaded");
                             ("file_name", JStr "a.png"); ("id", JStr image_id)]))
           (reply 200 (JObj [("message", JStr "Image uploaded");
                             ("file_name", JStr "a.png"); ("id", JStr other_id)]))
           "a.png" image_id other_id (list_to_map [("id", image_id)]));
    vm_compute; reflexivity.
Defined.

(** X13.  Deleting one record removes the blob of every record that shares
    its file name: when two ids name the same file, a 200 delete of one
    leaves the other record in the table, and a get of that other id
    answers 404, the bucket having no such key. *)
Theorem delete_breaks_records_sharing_the_file
  (json_loads : string -> option json) (e e2 : env) (ev ev2 : event)
  (w w1 : stores) (r : envelope) (k k' fn : string) (it it' : item)
  (params : gmap string string) :
  delete_image json_loads e ev w = (Ok r, w1) -> statusCode r = 200 ->
  response_json r
  = JObj [("message", JStr "Deleted successfully"); ("id", JStr k)] ->
  table w !! k = Some it -> assoc_get "file_name" it = Some (JStr fn) ->
  k' <> k ->
  table w !! k' = Some it' -> assoc_get "file_name" it' = Some (JStr fn) ->
  queryStringParameters ev2 = QMap params -> params !! "id" = Some k' ->
  str_is_empty k' = false ->
  fault e2 GetItem = None -> fault e2 GetObject = None ->
  table w1 !! k' = Some it'
  /\ get_image e2 ev2 w1 = (Ok (reply 404 (error_body (exn_str no_such_key))), w1).
Proof.
  intros H Hs Hr Hit Hf Hkk Hit' Hf' Hq Hp Hk' Hg Ho.
  destruct (delete_image_200_steps _ _ _ _ _ _ H Hs)
    as (s & d & k0 & it0 & fn0 & _ & _ & _ & _ & _ & _ & _ & Hit0 & Hf0 & Hne
        & _ & _ & -> & ->).
  cbn in Hr. injection Hr as ->.
  rewrite Hit in Hit0. injection Hit0 as <-.
  rewrite Hf in Hf0. injection Hf0 as <-.
  assert (Ht : table {| bucket := delete fn (bucket w); table := delete k (table w) |}
               !! k' = Some it').
  { cbn [table]. now rewrite lookup_delete_ne by congruence. }
  split; [exact Ht|].
  eapply get_image_blob_missing; try eassumption.
  cbn [bucket]. apply lookup_delete_eq.
Qed.

Lemma delete_breaks_records_sharing_the_file_witness :
  table {| bucket := ∅; table := delete image_id (table two_images) |} !! other_id
  = Some [("id", JStr other_id); ("file_name", JStr "a.png");
          ("metadata", JObj []); ("created_at", JStr "2025-10-06")]
  /\ get_image calm (query [("id", other_id)])
       {| bucket := ∅; table := delete image_id (table two_images) |}
     = (Ok (reply 404 (error_body (exn_str no_such_key))),
        {| bucket := ∅; table := delete image_id (table two_images) |}).
Proof.
  apply (delete_breaks_records_sharing_the_file json_loads_plain calm calm
           delete_hi (query [("id", other_id)]) two_images
           {| bucket := ∅; table := delete image_id (table two_images) |}
           (reply 200 (JObj [("message", JStr "Deleted successfully");
                             ("id", JStr image_id)]))
           image_id other_id "a.png"
           [("id", JStr image_id); ("file_name", JStr "a.png");
            ("metadata", JObj []); ("created_at", JStr "2025-10-05")]
           [("id", JStr other_id); ("file_name", JStr "a.png");
            ("metadata", JObj []); ("created_at", JStr "2025-10-06")]
           (list_to_map [("id", other_id)]));
    try (vm_compute; reflexivity).
  vm_compute. discriminate.
Defined.

(** ** Upload and delete together, and ids the table does not hold *)

(** X14.  Deleting the id an upload returned answers 200 and removes the
    record and the blob of the upload.  The stores are then as before the
    upload when the file name and the id were unused; a blob that was
    stored under the file name before the upload is not brought back. *)
Theorem upload_then_delete
  (json_loads : string -> option json) (e e2 : env) (ev ev2 : event)
  (w w1 : stores) (r : envelope) (F id s : string) (d : item) :
  upload_image json_loads e ev w = (Ok r, w1) -> statusCode r = 200 ->
  response_json r = JObj [("message", JStr "Image uploaded");
                          ("file_name", JStr F); ("id", JStr id)] ->
  str_is (httpMethod ev2) "DELETE" = true ->
  body ev2 = Some s -> str_is_empty s = false ->
  json_loads s = Some (JObj d) -> assoc_get "id" d = Some (JStr id) ->
  fault e2 GetItem = None -> fault e2 DeleteObject = None ->
  fault e2 DeleteItem = None ->
  let w2 := {| bucket := delete F (bucket w); table := delete id (table w) |} in
  delete_image json_loads e2 ev2 w1
  = (Ok (reply 200 (JObj [("message", JStr "Deleted successfully");
                          ("id", JStr id)])), w2)
  /\ (bucket w !! F = None -> table w !! id = None -> w2 = w).
Proof.
  intros H Hs Hr Hm Hb Hse Hd Hid Hg Ho Hi. cbv zeta.
  destruct (upload_image_200_inv _ _ _ _ _ _ H Hs)
    as (s1 & d1 & F1 & data1 & _ & _ & _ & Hne & _ & Hrw).
  cbv zeta in Hrw. destruct Hrw as [-> ->].
  cbn in Hr. injection Hr as -> Hu.
  assert (Hk : str_is_empty id = false).
  { rewrite <- Hu. apply uuid_str_truthy. }
  split.
  - rewrite (delete_image_found json_loads e2 ev2 _ s id F d
               [("id", JStr id); ("file_name", JStr F);
                ("metadata", default (JObj []) (assoc_get "metadata" d1));
                ("created_at", JStr (date_isoformat (local_date e)))]
               Hm Hb Hse Hd Hid Hk Hg Ho Hi).
    + cbn [bucket table]. rewrite Hu. now rewrite !delete_insert_eq.
    + cbn [table]. rewrite Hu. apply lookup_insert_eq.
    + reflexivity.
    + exact Hne.
  - intros HF Ht. destruct w as [b t]. cbn in HF, Ht |- *.
    now rewrite (delete_id _ _ HF), (delete_id _ _ Ht).
Qed.

Lemma upload_then_delete_witness :
  delete_image json_loads_plain calm delete_hi one_image
  = (Ok (reply 200 (JObj [("message", JStr "Deleted successfully");
                          ("id", JStr image_id)])),
     {| bucket := delete "a.png" (bucket empty_stores);
        table := delete image_id (table empty_stores) |})
  /\ (bucket empty_stores !! "a.png" = None ->
      table empty_stores !! image_id = None ->
      {| bucket := delete "a.png" (bucket empty_stores);
         table := delete image_id (table empty_stores) |} = empty_stores).
Proof.
  apply (upload_then_delete json_loads_plain calm calm upload_hi delete_hi
           empty_stores one_image
           (reply 200 (JObj [("message", JStr "Image uploaded");
                             ("file_name", JStr "a.png"); ("id", JStr image_id)]))
           "a.png" image_id
           (default EmptyString (body delete_hi)) [("id", JStr image_id)]);
    vm_compute; reflexivity.
Defined.

(** X15.  An id the table holds no record for: when the lookup itself does
    not fail, get_image and delete_image answer 404 Image not found and
    leave the stores as they were; delete_image does not reach the
    bucket. *)
Theorem unknown_id_is_404
  (json_loads : string -> option json) (e : env) (w : stores) (k : string) :
  table w !! k = None -> str_is_empty k = false -> fault e GetItem = None ->
  (forall (ev : event) (params : gmap string string),
     queryStringParameters ev = QMap params -> params !! "id" = Some k ->
     get_image e ev w = (Ok (reply 404 (error_body "Image not found")), w))
  /\ (forall (ev : event) (s : string) (d : item),
        str_is (httpMethod ev) "DELETE" = true ->
        body ev = Some s -> str_is_empty s = false ->
        json_loads s = Some (JObj d) -> assoc_get "id" d = Some (JStr k) ->
        delete_image json_loads e ev w
        = (Ok (reply 404 (error_body "Image not found")), w)).
Proof.
  intros Ht Hk Hg. split.
  - intros ev params Hq Hp.
    unfold get_image, table_get_item. unfold_monad.
    rewrite Hq, Hp. cbn. rewrite Hk, Hg. cbn. now rewrite Ht.
  - intros ev s d Hm Hb Hse Hd Hid.
    unfold delete_image, table_get_item. unfold_monad.
    rewrite Hm, Hb. cbn. rewrite Hse, Hd. cbn. rewrite Hid. cbn.
    rewrite Hk, Hg. cbn. now rewrite Ht.
Qed.

Lemma unknown_id_is_404_witness :
  get_image (outage DeleteObject s3_failed) (query [("id", other_id)]) one_image
  = (Ok (reply 404 (error_body "Image not found")), one_image)
  /\ delete_image json_loads_plain (outage DeleteObject s3_failed)
       (request "DELETE" (JObj [("id", JStr other_id)])) one_image
     = (Ok (reply 404 (error_body "Image not found")), one_image).
Proof.
  assert (H : table one_image !! other_id = None) by (vm_compute; reflexivity).
  destruct (unknown_id_is_404 json_loads_plain (outage DeleteObject s3_failed)
              one_image other_id H eq_refl eq_refl) as [Hget Hdel].
  split.
  - apply (Hget _ (list_to_map [("id", other_id)])); reflexivity.
  - apply (Hdel _ (default EmptyString
                     (body (request "DELETE" (JObj [("id", JStr other_id)]))))
             [("id", JStr other_id)]);
      vm_compute; reflexivity.
Defined.



(** ** What the list returns and when it cannot *)







(** ** The body of an answer that is not 200 *)

(** X19.  Every answer of the four handlers other than 200 has a body
    with the one key error, holding a message. *)
Theorem errors_carry_a_message
  (json_loads : string -> option json) (e : env) (ev : event) (w w' : stores)
  (r : envelope) :
  statusCode r <> 200 ->
  upload_image json_loads e ev w = (Ok r, w')
  \/ list_images e ev w = (Ok r, w')
  \/ get_image e ev w = (Ok r, w')
  \/ delete_image json_loads e ev w = (Ok r, w') ->
  exists msg : string, response_json r = error_body msg.
Proof.
  intros Hs [H|[H|[H|H]]].
  - unfold upload_image, s3_put_object, table_put_item in H. unfold_monad_in H.
    cbn in H.
    repeat first
      [ injection H as <- <-; status_facts;
        first [ exfalso; cbn in Hs; lia | eexists; reflexivity ]
      | split_inner H ].
  - unfold list_images, table_scan in H. unfold_monad_in H.
    cbn -[condition_holds response fmap] in H.
    repeat first
      [ injection H as <- <-; status_facts;
        first [ exfalso; cbn in Hs; lia | eexists; reflexivity ]
      | match type of H with
        | context [match ?x with _ => _ end] =>
            lazymatch x with
            | context [match _ with _ => _ end] => fail
            | _ => destruct x eqn:?; cbn -[condition_holds response fmap] in H
            end
        end ].
  - unfold get_image, table_get_item, s3_get_object in H. unfold_monad_in H.
    cbn -[b64encode] in H.
    repeat first
      [ injection H as <- <-; status_facts;
        first [ exfalso; cbn in Hs; lia | eexists; reflexivity ]
      | match type of H with
        | context [match ?x with _ => _ end] =>
            lazymatch x with
            | context [match _ with _ => _ end] => fail
            | _ => destruct x eqn:?; cbn -[b64encode] in H
            end
        end ].
  - unfold delete_image, table_get_item, table_delete_item, s3_delete_object in H.
    unfold_monad_in H. cbn in H.
    repeat first
      [ injection H as <- <-; status_facts;
        first [ exfalso; cbn in Hs; lia | eexists; reflexivity ]
      | split_inner H ].
Qed.

Lemma errors_carry_a_message_witness :
  exists msg : string,
    response_json (reply 404 (error_body "Image not found")) = error_body msg.
Proof.
  apply (errors_carry_a_message json_loads_plain calm (query [("id", other_id)])
           one_image one_image (reply 404 (error_body "Image not found"))).
  - cbn. lia.
  - right. right. left. vm_compute. reflexivity.
Defined.

(** ** More of what a refused request leaves *)

(** X20.  A file name that is not a string is not refused as a bad
    request: when file_name is truthy but no string (a number, a list, an
    object) and the content decodes, the client of the bucket refuses the
    key before any request is sent, and upload_image answers 500 and writes
    nothing. *)
Theorem upload_file_name_not_a_string_is_500
  (json_loads : string -> option json) (e : env) (ev : event) (w : stores)
  (s : string) (d : item) (v : json) (data : list byte) :
  str_is (httpMethod ev) "POST" = true ->
  body ev = Some s -> str_is_empty s = false ->
  json_loads s = Some (JObj d) ->
  assoc_get "file_name" d = Some v -> truthy v = true ->
  (forall F : string, v <> JStr F) ->
  truthy (default JNull (assoc_get "file_content" d)) = true ->
  b64decode (default JNull (assoc_get "file_content" d)) = Ok data ->
  exists msg : string,
    upload_image json_loads e ev w = (Ok (reply 500 (error_body msg)), w).
Proof.
  intros Hm Hb Hse Hd Hv Htv Hns Htc Hdata.
  unfold upload_image, s3_put_object. unfold_monad.
  rewrite Hm, Hb. cbn. rewrite Hse, Hd. cbn. rewrite Hv. cbn.
  rewrite Htv, Htc, Hdata. cbn.
  destruct v as [| | | |F| | |]; try (eexists; reflexivity).
  now destruct (Hns F).
Qed.

Lemma upload_file_name_not_a_string_is_500_witness :
  exists msg : string,
    upload_image json_loads_plain calm
      (request "POST" (JObj [("file_name", JInt 5); ("file_content", JStr "aGk=")]))
      empty_stores
    = (Ok (reply 500 (error_body msg)), empty_stores).
Proof.
  apply (upload_file_name_not_a_string_is_500 json_loads_plain calm
           (request "POST" (JObj [("file_name", JInt 5);
                                  ("file_content", JStr "aGk=")]))
           empty_stores
           (default EmptyString
              (body (request "POST" (JObj [("file_name", JInt 5);
                                           ("file_content", JStr "aGk=")]))))
           [("file_name", JInt 5); ("file_content", JStr "aGk=")]
           (JInt 5) (bytes_of_text "hi"));
    try (vm_compute; reflexivity).
  intros F. discriminate.
Defined.

(** X21.  A delete that does not answer 200 has removed no record: the
    table is as before, and the bucket is as before or lacks one blob. *)
Theorem failed_delete_keeps_record
  (json_loads : string -> option json) (e : env) (ev : event) (w w' : stores)
  (r : envelope) :
  delete_image json_loads e ev w = (Ok r, w') -> statusCode r <> 200 ->
  table w' = table w
  /\ (bucket w' = bucket w \/ exists fn, bucket w' = delete fn (bucket w)).
Proof.
  intros H Hs.
  unfold delete_image, table_get_item, table_delete_item, s3_delete_object in H.
  unfold_monad_in H. cbn in H.
  repeat first
    [ injection H as <- <-; status_facts;
      first [ exfalso; cbn in Hs; lia
            | now (split; [reflexivity|left])
            | now (split; [reflexivity|right; eexists]) ]
    | split_inner H ].
Qed.

Lemma failed_delete_keeps_record_witness :
  table {| bucket := ∅; table := table one_image |} = table one_image
  /\ (bucket {| bucket := ∅; table := table one_image |} = bucket one_image
      \/ exists fn,
           bucket {| bucket := ∅; table := table one_image |}
           = delete fn (bucket one_image)).
Proof.
  apply (failed_delete_keeps_record json_loads_plain
           (outage DeleteItem connection_error) delete_hi one_image
           {| bucket := ∅; table := table one_image |}
           (reply 500 (error_body (exn_str connection_error)))).
  - vm_compute. reflexivity.
  - cbn. lia.
Defined.
